(** * zotero_mcp: a shallow embedding of [main.py]

    The server exposes a Zotero library through a handful of tool and
    resource functions.  Each one fetches a client from process-wide
    credentials, calls the external [pyzotero] client inside a
    [try]/[except Exception] block and formats a textual answer.

    Modelling choices.
    - A Python value reaching the program (an item, a field of its [data], a
      value of the [criteria] argument) is a [value]: the JSON fragment of
      Python's object model, floats left out.  Dictionaries are association
      lists, in insertion order; lookup takes the first binding of a key.
    - A Python [str] is the [string] of its UTF-8 bytes.  A character (a
      code point) is a lead byte with the continuation bytes after it:
      [len], slicing and [str.strip] work on characters, and white space is
      the set of code points for which [str.isspace] holds.  [str.lower]
      needs the Unicode case tables and is a field of [PyRuntime].
    - The module globals [ZOTERO_LIBRARY_ID], [ZOTERO_API_KEY],
      [ZOTERO_LIBRARY_TYPE] and [zot] are fields of [state]; the state is
      threaded through a state-and-exception monad [M].  An exception does
      not undo the assignments made before it.
    - An exception is an instance of [Exception], which is what the
      handlers of the program catch; [KeyboardInterrupt] and the like are
      outside the model.
    - The [pyzotero] client, [json.dumps] and [repr] are not code of this
      repository: they are the fields of the classes [PyZotero] and
      [PyRuntime].  Every call of the client is a function of a [World] (the
      remote library, the network) that may raise, and it is appended to the
      [calls] log of the state, which plays the part of the call recorder of
      a substitute client. *)

From Stdlib Require Import String Ascii List ZArith Bool Lia Permutation.
From Stdlib Require Import DecimalString.
Import ListNotations.
Open Scope string_scope.
Open Scope list_scope.
Open Scope Z_scope.
Set Warnings "-register-all".

Notation "a +++ b" := (String.append a b) (at level 60, right associativity).

(* ================================================================== *)
(** * Python values and exceptions *)

Inductive value : Type :=
| VNone
| VBool (b : bool)
| VInt (n : Z)
| VStr (s : string)
| VList (l : list value)
| VDict (d : list (string * value)).

Definition dict := list (string * value).

(** An instance of [Exception]; [str_e] is what [str(e)] evaluates to. *)
Inductive exn : Type :=
| Exception (str_e : string).

Definition str_e (e : exn) : string :=
  match e with Exception m => m end.

Inductive res (A : Type) : Type :=
| Ok (a : A)
| Raise (e : exn).
Arguments Ok {A} a.
Arguments Raise {A} e.

Module Res.
Definition bind {A B} (m : res A) (k : A -> res B) : res B :=
  match m with
  | Ok a => k a
  | Raise e => Raise e
  end.
End Res.

Declare Scope res_scope.
Delimit Scope res_scope with res.
Notation "x <- m ;; k" := (Res.bind m (fun x => k))
  (at level 100, m at next level, right associativity) : res_scope.

(** What the program takes from Python itself: [json.dumps(v, indent=i,
    ensure_ascii=False)] and [repr(v)], both total on the JSON fragment,
    and [s.lower()], of which the program only needs that it maps the
    empty string, and nothing else, to the empty string. *)
Class PyRuntime := {
  json_dumps : option Z -> value -> string;
  repr : value -> string;
  lower : string -> string;
  lower_nil : forall s, lower s = EmptyString <-> s = EmptyString
}.

(* ================================================================== *)
(** * Strings *)

Definition LF : string := String (ascii_of_nat 10) EmptyString.

(** [str(n)] for an [int]. *)
Definition str_of_int (z : Z) : string := NilZero.string_of_int (Z.to_int z).

(** ** Characters *)

(** A continuation byte of UTF-8: [10xxxxxx]. *)
Definition is_continuation (c : ascii) : bool :=
  let n := nat_of_ascii c in
  ((128 <=? n) && (n <? 192))%nat.

Definition starts_with_continuation (s : string) : bool :=
  match s with
  | String c _ => is_continuation c
  | EmptyString => false
  end.

(** The characters of [s], each as the string of its bytes: a byte opens a
    new character unless the bytes after it still lack their lead byte. *)
Fixpoint chars (s : string) : list string :=
  match s with
  | EmptyString => []
  | String c s' =>
      match chars s' with
      | ch :: rest =>
          if starts_with_continuation ch
          then String c ch :: rest
          else String c EmptyString :: ch :: rest
      | [] => [String c EmptyString]
      end
  end.

Fixpoint concat_str (l : list string) : string :=
  match l with
  | [] => EmptyString
  | x :: rest => x +++ concat_str rest
  end.

(** [len(s)]: the number of characters. *)
Definition len (s : string) : Z := Z.of_nat (List.length (chars s)).

(** [s[:n]]: the first [n] characters. *)
Definition slice_to (n : nat) (s : string) : string :=
  concat_str (firstn n (chars s)).

Fixpoint continuation_bits (acc : N) (s : string) : N :=
  match s with
  | EmptyString => acc
  | String c s' => continuation_bits (acc * 64 + (N_of_ascii c - 128))%N s'
  end.

(** The code point a character encodes: the payload of the lead byte, then
    six bits per continuation byte. *)
Definition code_point (ch : string) : N :=
  match ch with
  | EmptyString => 0%N
  | String c rest =>
      let b := N_of_ascii c in
      continuation_bits
        (if b <? 128 then b
         else if b <? 192 then b - 128
         else if b <? 224 then b - 192
         else if b <? 240 then b - 224
         else b - 240)%N
        rest
  end.

(** [ch.isspace()]: the code points Python holds for white space, which are
    U+0009 to U+000D, U+001C to U+0020, U+0085, U+00A0, U+1680, U+2000 to
    U+200A, U+2028, U+2029, U+202F, U+205F and U+3000. *)
Definition isspace (ch : string) : bool :=
  let n := code_point ch in
  (((9 <=? n) && (n <=? 13)) || ((28 <=? n) && (n <=? 32))
   || (n =? 133) || (n =? 160) || (n =? 5760)
   || ((8192 <=? n) && (n <=? 8202))
   || (n =? 8232) || (n =? 8233) || (n =? 8239) || (n =? 8287)
   || (n =? 12288))%N.

Fixpoint lstrip_chars (l : list string) : list string :=
  match l with
  | [] => []
  | ch :: l' => if isspace ch then lstrip_chars l' else l
  end.

Fixpoint rstrip_chars (l : list string) : list string :=
  match l with
  | [] => []
  | ch :: l' =>
      match rstrip_chars l' with
      | [] => if isspace ch then [] else [ch]
      | r => ch :: r
      end
  end.

(** [s.strip()]: the string without the white space characters at its two
    ends. *)
Definition strip (s : string) : string :=
  concat_str (rstrip_chars (lstrip_chars (chars s))).

(** [sub in s] for two strings.  On UTF-8 a match of bytes is a match of
    characters: the encoding of a character never starts inside the
    encoding of another. *)
Fixpoint str_in (sub s : string) : bool :=
  String.prefix sub s ||
  match s with
  | EmptyString => false
  | String _ s' => str_in sub s'
  end.

Fixpoint repeat_str (s : string) (n : nat) : string :=
  match n with
  | O => EmptyString
  | S n' => s +++ repeat_str s n'
  end.

(** [s * n]; a count below one gives the empty string. *)
Definition str_mul (s : string) (n : Z) : string := repeat_str s (Z.to_nat n).

(** [sep.join(l)]. *)
Fixpoint join (sep : string) (l : list string) : string :=
  match l with
  | [] => EmptyString
  | [x] => x
  | x :: rest => x +++ sep +++ join sep rest
  end.

(** [not s]: a string is falsy when it is empty. *)
Definition is_empty (s : string) : bool :=
  match s with
  | EmptyString => true
  | _ => false
  end.

(* ================================================================== *)
(** * Operations on values *)

Definition type_name (v : value) : string :=
  match v with
  | VNone => "NoneType"
  | VBool _ => "bool"
  | VInt _ => "int"
  | VStr _ => "str"
  | VList _ => "list"
  | VDict _ => "dict"
  end.

Definition AttributeError (v : value) (attr : string) : exn :=
  Exception ("'" +++ type_name v +++ "' object has no attribute '" +++ attr +++ "'").

Fixpoint dict_get (k : string) (d : dict) : option value :=
  match d with
  | [] => None
  | (k', v) :: d' => if String.eqb k k' then Some v else dict_get k d'
  end.

(** [k in d]. *)
Definition dict_in (k : string) (d : dict) : bool :=
  match dict_get k d with
  | Some _ => true
  | None => false
  end.

Definition KeyError (k : string) : exn := Exception ("'" +++ k +++ "'").

(** [d[k]]. *)
Definition dict_item (d : dict) (k : string) : res value :=
  match dict_get k d with
  | Some x => Ok x
  | None => Raise (KeyError k)
  end.

(** [v.get(k, default)]: only a [dict] has the method. *)
Definition py_get (v : value) (k : string) (default : value) : res value :=
  match v with
  | VDict d =>
      match dict_get k d with
      | Some x => Ok x
      | None => Ok default
      end
  | _ => Raise (AttributeError v "get")
  end.

(** [v.lower()]: only a [str] has the method. *)
Definition py_lower {RT : PyRuntime} (v : value) : res string :=
  match v with
  | VStr s => Ok (lower s)
  | _ => Raise (AttributeError v "lower")
  end.

Definition int_of_bool (b : bool) : Z := if b then 1 else 0.

(** [a == b].  [bool] is a subclass of [int], so [True == 1]; two dicts are
    equal when they bind the same keys to equal values, in any order. *)
Fixpoint py_eq (a b : value) {struct a} : bool :=
  match a, b with
  | VNone, VNone => true
  | VBool x, VBool y => Bool.eqb x y
  | VBool x, VInt y => Z.eqb (int_of_bool x) y
  | VInt x, VBool y => Z.eqb x (int_of_bool y)
  | VInt x, VInt y => Z.eqb x y
  | VStr x, VStr y => String.eqb x y
  | VList x, VList y =>
      (fix eq_list (x : list value) (y : list value) {struct x} : bool :=
         match x, y with
         | [], [] => true
         | u :: x', v :: y' => py_eq u v && eq_list x' y'
         | _, _ => false
         end) x y
  | VDict x, VDict y =>
      Nat.eqb (List.length x) (List.length y) &&
      (fix eq_items (x : list (string * value)) {struct x} : bool :=
         match x with
         | [] => true
         | (k, u) :: x' =>
             match dict_get k y with
             | Some v => py_eq u v && eq_items x'
             | None => false
             end
         end) x
  | _, _ => false
  end.

(** [a != b]. *)
Definition py_ne (a b : value) : bool := negb (py_eq a b).

(** [item.get("key")] for an item that is a dict, [None] otherwise. *)
Definition item_key (item : value) : value :=
  match py_get item "key" VNone with
  | Ok k => k
  | Raise _ => VNone
  end.

(* ================================================================== *)
(** * The retention filter: lines 173-194 of [retain_items_by_criteria] *)

Section RetentionFilter.
Context {RT : PyRuntime}.
Local Open Scope res_scope.

(** The body of the [for item in all_items] loop up to the final [if]:
    the value of [should_retain] for one item. *)
Definition should_retain (criteria : dict) (item : value) : res bool :=
  data <- py_get item "data" (VDict []) ;;
  let should_retain := true in
  should_retain <-
    (if dict_in "item_type" criteria then
       item_type <- py_get data "itemType" VNone ;;
       wanted <- dict_item criteria "item_type" ;;
       Ok (if py_ne item_type wanted then false else should_retain)
     else Ok should_retain) ;;
  (if dict_in "title_contains" criteria then
     wanted <- dict_item criteria "title_contains" ;;
     needle <- py_lower wanted ;;
     title <- py_get data "title" (VStr "") ;;
     hay <- py_lower title ;;
     Ok (if negb (str_in needle hay) then false else should_retain)
   else Ok should_retain).

(** The loop, with the two lists it appends to. *)
Fixpoint partition_loop (criteria : dict) (all_items : list value)
         (items_to_retain items_to_delete : list value)
  : res (list value * list value) :=
  match all_items with
  | [] => Ok (items_to_retain, items_to_delete)
  | item :: rest =>
      keep <- should_retain criteria item ;;
      if keep
      then partition_loop criteria rest (items_to_retain ++ [item]) items_to_delete
      else partition_loop criteria rest items_to_retain (items_to_delete ++ [item])
  end.

Definition partition (criteria : dict) (all_items : list value)
  : res (list value * list value) :=
  partition_loop criteria all_items [] [].
End RetentionFilter.

(* ================================================================== *)
(** * What the program takes from outside *)

(** The [pyzotero] client.  [Zotero] is the type of the instances of
    [zotero.Zotero]; the constructor and the four methods the program uses
    read and change a [World] and may raise. *)
Class PyZotero := {
  World : Type;
  Zotero : Type;
  zotero_Zotero : string -> string -> string -> World -> res Zotero * World;
  zot_top : Zotero -> option Z -> World -> res (list value) * World;
  zot_everything : Zotero -> list value -> World -> res (list value) * World;
  zot_item : Zotero -> value -> World -> res value * World;
  zot_delete_item : Zotero -> value -> World -> res unit * World
}.

(** One entry of the log of client calls. *)
Inductive call : Type :=
| CallZotero (library_id library_type api_key : string)
| CallTop (limit : option Z)
| CallEverything (query : list value)
| CallItem (item_key : value)
| CallDeleteItem (item_key : value).

Definition is_delete (c : call) : bool :=
  match c with
  | CallDeleteItem _ => true
  | _ => false
  end.

(** A call on a client instance, as opposed to the construction of one. *)
Definition is_method_call (c : call) : bool :=
  match c with
  | CallZotero _ _ _ => false
  | _ => true
  end.

Definition with_default {A} (d : A) (o : option A) : A :=
  match o with
  | Some a => a
  | None => d
  end.

Section Server.
Context {RT : PyRuntime} {PZ : PyZotero}.

(** The module globals, the outside world and the call log. *)
Record state : Type := mkState {
  ZOTERO_LIBRARY_ID : string;
  ZOTERO_API_KEY : string;
  ZOTERO_LIBRARY_TYPE : string;
  zot : option Zotero;
  world : World;
  calls : list call
}.

(** The globals as lines 9-17 leave them, from the three environment
    variables ([None] when a variable is unset). *)
Definition initial_state (env_id env_key env_type : option string) (w : World)
  : state :=
  mkState (with_default "" env_id) (with_default "" env_key)
          (with_default "user" env_type) None w [].

Definition M (A : Type) : Type := state -> res A * state.

Definition ret {A} (a : A) : M A := fun s => (Ok a, s).

Definition bind {A B} (m : M A) (k : A -> M B) : M B :=
  fun s =>
    match m s with
    | (Ok a, s') => k a s'
    | (Raise e, s') => (Raise e, s')
    end.

(** [try: body / except Exception as e: handler e]. *)
Definition try_except {A} (body : M A) (handler : exn -> M A) : M A :=
  fun s =>
    match body s with
    | (Ok a, s') => (Ok a, s')
    | (Raise e, s') => handler e s'
    end.

Definition lift {A} (r : res A) : M A := fun s => (r, s).

Definition gets {A} (f : state -> A) : M A := fun s => (Ok (f s), s).

Definition modify (f : state -> state) : M unit := fun s => (Ok tt, f s).

Definition set_credentials (library_id api_key library_type : string) (s : state)
  : state :=
  mkState library_id api_key library_type (zot s) (world s) (calls s).

Definition set_zot (z : option Zotero) (s : state) : state :=
  mkState (ZOTERO_LIBRARY_ID s) (ZOTERO_API_KEY s) (ZOTERO_LIBRARY_TYPE s)
          z (world s) (calls s).

(** A client call: run it on the world, record it in the log. *)
Definition external {A} (c : call) (f : World -> res A * World) : M A :=
  fun s =>
    let (r, w) := f (world s) in
    (r, mkState (ZOTERO_LIBRARY_ID s) (ZOTERO_API_KEY s) (ZOTERO_LIBRARY_TYPE s)
                (zot s) w (calls s ++ [c])).

Definition call_Zotero (library_id library_type api_key : string) : M Zotero :=
  external (CallZotero library_id library_type api_key)
           (zotero_Zotero library_id library_type api_key).

Definition call_top (z : Zotero) (limit : option Z) : M (list value) :=
  external (CallTop limit) (zot_top z limit).

Definition call_everything (z : Zotero) (query : list value) : M (list value) :=
  external (CallEverything query) (zot_everything z query).

Definition call_item (z : Zotero) (item_key : value) : M value :=
  external (CallItem item_key) (zot_item z item_key).

Definition call_delete_item (z : Zotero) (item_key : value) : M unit :=
  external (CallDeleteItem item_key) (zot_delete_item z item_key).
End Server.

Declare Scope py_scope.
Delimit Scope py_scope with py.
Notation "x <- m ;; k" := (bind m (fun x => k))
  (at level 100, m at next level, right associativity) : py_scope.
Notation "m ;;; k" := (bind m (fun _ => k))
  (at level 100, right associativity) : py_scope.

(* ================================================================== *)
(** * The operations of [main.py] *)

(** [str(v)], as an f-string field formats a value. *)
Definition py_str {RT : PyRuntime} (v : value) : string :=
  match v with
  | VNone => "None"
  | VBool true => "True"
  | VBool false => "False"
  | VInt n => str_of_int n
  | VStr s => s
  | _ => repr v
  end.

(** The answer of every tool when [get_zotero_client] returns [None]. *)
Definition NOT_CONFIGURED : string :=
  "❌ 错误：Zotero未配置。请先使用 configure_zotero 工具设置您的API凭据。".

(** The text of the [error] field of the two resources in that case. *)
Definition NOT_CONFIGURED_RESOURCE : string :=
  "Zotero未配置。请先使用 configure_zotero 工具设置您的API凭据。".

Definition UNTITLED : string := "无标题".

Fixpoint str_list_mem (x : string) (l : list string) : bool :=
  match l with
  | [] => false
  | y :: l' => String.eqb x y || str_list_mem x l'
  end.

(** ** The item summaries (lines 71-76, 137-142 and 262-267) *)

Section Summaries.
Context {RT : PyRuntime}.
Local Open Scope res_scope.

(** [list_items] looks [data] up once per field. *)
Definition list_items_summary (item : value) : res value :=
  key <- py_get item "key" VNone ;;
  data <- py_get item "data" (VDict []) ;;
  title <- py_get data "title" (VStr UNTITLED) ;;
  data <- py_get item "data" (VDict []) ;;
  itemType <- py_get data "itemType" VNone ;;
  data <- py_get item "data" (VDict []) ;;
  dateAdded <- py_get data "dateAdded" VNone ;;
  Ok (VDict [("key", key); ("title", title);
             ("itemType", itemType); ("dateAdded", dateAdded)]).

(** [search_items] and [get_recent_items] bind [data] first. *)
Definition data_summary (item data : value) : res value :=
  key <- py_get item "key" VNone ;;
  title <- py_get data "title" (VStr UNTITLED) ;;
  itemType <- py_get data "itemType" VNone ;;
  dateAdded <- py_get data "dateAdded" VNone ;;
  Ok (VDict [("key", key); ("title", title);
             ("itemType", itemType); ("dateAdded", dateAdded)]).

(** The dict [search_items] appends for an item that matches. *)
Definition search_items_summary (item : value) : res value :=
  data <- py_get item "data" (VDict []) ;;
  data_summary item data.

(** The dict [get_recent_items] appends. *)
Definition recent_items_summary (item : value) : res value :=
  data <- py_get item "data" (VDict []) ;;
  data_summary item data.

(** [for item in items: result.append(f(item))]. *)
Fixpoint for_append (f : value -> res value) (items result : list value)
  : res (list value) :=
  match items with
  | [] => Ok result
  | item :: rest =>
      x <- f item ;;
      for_append f rest (result ++ [x])
  end.

(** The loop of [search_items] (lines 130-142). *)
Fixpoint search_loop (query : string) (item_type : option string)
         (items filtered_items : list value) : res (list value) :=
  match items with
  | [] => Ok filtered_items
  | item :: rest =>
      data <- py_get item "data" (VDict []) ;;
      t <- py_get data "title" (VStr "") ;;
      title <- py_lower t ;;
      if str_in (lower query) title then
        type_ok <-
          match item_type with
          | None => Ok true
          | Some ty =>
              it <- py_get data "itemType" VNone ;;
              Ok (py_eq it (VStr ty))
          end ;;
        if (type_ok : bool) then
          x <- data_summary item data ;;
          search_loop query item_type rest (filtered_items ++ [x])
        else search_loop query item_type rest filtered_items
      else search_loop query item_type rest filtered_items
  end.

(** ** The histogram of [get_library_stats] (lines 235-238) *)

Definition hashable (v : value) : bool :=
  match v with
  | VList _ | VDict _ => false
  | _ => true
  end.

Definition TypeError_unhashable (v : value) : exn :=
  Exception ("unhashable type: '" +++ type_name v +++ "'").

Fixpoint counts_get (k : value) (type_counts : list (value * Z)) (default : Z)
  : Z :=
  match type_counts with
  | [] => default
  | (k', n) :: rest => if py_eq k k' then n else counts_get k rest default
  end.

Fixpoint counts_set (k : value) (n : Z) (type_counts : list (value * Z))
  : list (value * Z) :=
  match type_counts with
  | [] => [(k, n)]
  | (k', m) :: rest =>
      if py_eq k k' then (k', n) :: rest else (k', m) :: counts_set k n rest
  end.

Fixpoint stats_loop (items : list value) (type_counts : list (value * Z))
  : res (list (value * Z)) :=
  match items with
  | [] => Ok type_counts
  | item :: rest =>
      data <- py_get item "data" (VDict []) ;;
      item_type <- py_get data "itemType" (VStr "unknown") ;;
      if hashable item_type then
        stats_loop rest
          (counts_set item_type (counts_get item_type type_counts 0 + 1) type_counts)
      else Raise (TypeError_unhashable item_type)
  end.

(** [json.dumps] writes a key that is not a string as JSON text. *)
Definition json_key (v : value) : string :=
  match v with
  | VStr s => s
  | VNone => "null"
  | VBool true => "true"
  | VBool false => "false"
  | VInt n => str_of_int n
  | _ => ""
  end.

Definition counts_value (type_counts : list (value * Z)) : value :=
  VDict (map (fun kn => (json_key (fst kn), VInt (snd kn))) type_counts).
End Summaries.

(** The masked key of [check_zotero_config] (line 280). *)
Definition masked_key (api_key : string) : string :=
  if len api_key >? 8
  then slice_to 8 api_key +++ str_mul "*" (len api_key - 8)
  else str_mul "*" (len api_key).

Section Operations.
Context {RT : PyRuntime} {PZ : PyZotero}.
Local Open Scope py_scope.

Definition str_of_len {A} (l : list A) : string :=
  str_of_int (Z.of_nat (List.length l)).

(** Lines 19-29. *)
Definition get_zotero_client : M (option Zotero) :=
  library_id <- gets ZOTERO_LIBRARY_ID ;;
  api_key <- gets ZOTERO_API_KEY ;;
  if is_empty library_id || is_empty api_key then ret None
  else
    cached <- gets zot ;;
    match cached with
    | None =>
        try_except
          (library_type <- gets ZOTERO_LIBRARY_TYPE ;;
           client <- call_Zotero library_id library_type api_key ;;
           modify (set_zot (Some client)) ;;;
           gets zot)
          (fun _ => ret None)
    | Some _ => gets zot
    end.

(** Lines 51-58: the live probe, on the credentials the globals hold. *)
Definition probe_connection : M string :=
  try_except
    (id <- gets ZOTERO_LIBRARY_ID ;;
     ty <- gets ZOTERO_LIBRARY_TYPE ;;
     key <- gets ZOTERO_API_KEY ;;
     test_client <- call_Zotero id ty key ;;
     call_top test_client (Some 1) ;;;
     id <- gets ZOTERO_LIBRARY_ID ;;
     ty <- gets ZOTERO_LIBRARY_TYPE ;;
     ret ("✅ Zotero配置成功！" +++ LF +++ "库ID: " +++ id +++ LF
          +++ "库类型: " +++ ty))
    (fun e =>
       ret ("❌ Zotero配置失败: " +++ str_e e +++ LF
            +++ "请检查您的库ID和API密钥是否正确")).

(** Lines 31-58.  [library_type] is [None] when the caller leaves it out. *)
Definition configure_zotero (library_id api_key : string)
           (library_type : option string) : M string :=
  let library_type := with_default "user" library_type in
  if is_empty library_id || is_empty api_key then
    ret "错误：库ID和API密钥不能为空"
  else if negb (str_list_mem library_type ["user"; "group"]) then
    ret "错误：库类型必须是 'user' 或 'group'"
  else
    modify (set_credentials (strip library_id) (strip api_key) (strip library_type)) ;;;
    modify (set_zot None) ;;;
    probe_connection.

(** Lines 60-79. *)
Definition list_items (limit : option Z) : M string :=
  let limit := with_default 50 limit in
  zot <- get_zotero_client ;;
  match zot with
  | None => ret NOT_CONFIGURED
  | Some zot =>
      try_except
        (items <- call_top zot (Some limit) ;;
         result <- lift (for_append list_items_summary items []) ;;
         ret ("找到 " +++ str_of_len result +++ " 个条目:" +++ LF
              +++ json_dumps (Some 2) (VList result)))
        (fun e => ret ("获取条目列表失败: " +++ str_e e))
  end.

(** Lines 81-92. *)
Definition delete_item (item_key : string) : M string :=
  zot <- get_zotero_client ;;
  match zot with
  | None => ret NOT_CONFIGURED
  | Some zot =>
      try_except
        (call_delete_item zot (VStr item_key) ;;;
         ret ("成功删除条目: " +++ item_key))
        (fun e => ret ("删除条目失败: " +++ str_e e))
  end.

(** The loop of [delete_items_batch] (lines 104-109) with its two
    accumulators. *)
Fixpoint delete_batch_loop (zot : Zotero) (item_keys : list string)
         (success_count : Z) (errors : list string) : M (Z * list string) :=
  match item_keys with
  | [] => ret (success_count, errors)
  | key :: rest =>
      acc <- try_except
               (call_delete_item zot (VStr key) ;;;
                ret (success_count + 1, errors))
               (fun e => ret (success_count, errors ++ [key +++ ": " +++ str_e e])) ;;
      delete_batch_loop zot rest (fst acc) (snd acc)
  end.

(** Lines 111-115: the text of the report. *)
Definition batch_report (success_count : Z) (errors : list string) : string :=
  let result := "成功删除 " +++ str_of_int success_count +++ " 个条目" in
  match errors with
  | [] => result
  | _ => result +++ LF +++ "删除失败的条目:" +++ LF +++ join LF errors
  end.

(** Lines 94-117. *)
Definition delete_items_batch (item_keys : list string) : M string :=
  zot <- get_zotero_client ;;
  match zot with
  | None => ret NOT_CONFIGURED
  | Some zot =>
      try_except
        (acc <- delete_batch_loop zot item_keys 0 [] ;;
         ret (batch_report (fst acc) (snd acc)))
        (fun e => ret ("批量删除失败: " +++ str_e e))
  end.

(** Lines 119-146. *)
Definition search_items (query : string) (item_type : option string) : M string :=
  zot <- get_zotero_client ;;
  match zot with
  | None => ret NOT_CONFIGURED
  | Some zot =>
      try_except
        (first_page <- call_top zot None ;;
         items <- call_everything zot first_page ;;
         filtered_items <- lift (search_loop query item_type items []) ;;
         ret ("搜索结果 (" +++ str_of_len filtered_items +++ " 个条目):" +++ LF
              +++ json_dumps (Some 2) (VList filtered_items)))
        (fun e => ret ("搜索失败: " +++ str_e e))
  end.

(** Lines 148-159. *)
Definition get_item_details (item_key : string) : M string :=
  zot <- get_zotero_client ;;
  match zot with
  | None => ret NOT_CONFIGURED
  | Some zot =>
      try_except
        (item <- call_item zot (VStr item_key) ;;
         ret ("条目详情:" +++ LF +++ json_dumps (Some 2) item))
        (fun e => ret ("获取条目详情失败: " +++ str_e e))
  end.

(** Lines 202-204: the preview lines, for the items it is given. *)
Fixpoint preview_loop (items : list value) (result : string) : res string :=
  match items with
  | [] => Ok result
  | item :: rest =>
      (data <- py_get item "data" (VDict []) ;;
       title <- py_get data "title" (VStr UNTITLED) ;;
       key <- py_get item "key" VNone ;;
       preview_loop rest
         (result +++ "- " +++ py_str title +++ " (" +++ py_str key +++ ")" +++ LF))%res
  end.

(** Lines 209-215: the deleting loop with [result] and [deleted_count]. *)
Fixpoint retain_delete_loop (zot : Zotero) (items_to_delete : list value)
         (result : string) (deleted_count : Z) : M (string * Z) :=
  match items_to_delete with
  | [] => ret (result, deleted_count)
  | item :: rest =>
      acc <- try_except
               (key <- lift (py_get item "key" VNone) ;;
                call_delete_item zot key ;;;
                ret (result, deleted_count + 1))
               (fun e =>
                  key <- lift (py_get item "key" VNone) ;;
                  ret (result +++ "删除失败 " +++ py_str key +++ ": " +++ str_e e
                       +++ LF, deleted_count)) ;;
      retain_delete_loop zot rest (fst acc) (snd acc)
  end.

(** Lines 161-220.  [dry_run] is [None] when the caller leaves it out. *)
Definition retain_items_by_criteria (criteria : dict) (dry_run : option bool)
  : M string :=
  let dry_run := with_default true dry_run in
  zot <- get_zotero_client ;;
  match zot with
  | None => ret NOT_CONFIGURED
  | Some zot =>
      try_except
        (first_page <- call_top zot None ;;
         all_items <- call_everything zot first_page ;;
         parts <- lift (partition criteria all_items) ;;
         let items_to_retain := fst parts in
         let items_to_delete := snd parts in
         let result :=
           "根据条件筛选结果:" +++ LF
           +++ "保留条目: " +++ str_of_len items_to_retain +++ " 个" +++ LF
           +++ "待删除条目: " +++ str_of_len items_to_delete +++ " 个" +++ LF in
         if (dry_run : bool) then
           let result := result +++ LF +++ "[预览模式] 待删除的条目:" +++ LF in
           result <- lift (preview_loop (firstn 10 items_to_delete) result) ;;
           if Z.of_nat (List.length items_to_delete) >? 10 then
             ret (result +++ "... 还有 "
                  +++ str_of_int (Z.of_nat (List.length items_to_delete) - 10)
                  +++ " 个条目" +++ LF)
           else ret result
         else
           acc <- retain_delete_loop zot items_to_delete result 0 ;;
           ret (fst acc +++ LF +++ "实际删除了 " +++ str_of_int (snd acc)
                +++ " 个条目"))
        (fun e => ret ("执行筛选操作失败: " +++ str_e e))
  end.

Definition json_error (message : string) : string :=
  json_dumps None (VDict [("error", VStr message)]).

(** Lines 223-247. *)
Definition get_library_stats : M string :=
  zot <- get_zotero_client ;;
  match zot with
  | None => ret (json_error NOT_CONFIGURED_RESOURCE)
  | Some zot =>
      try_except
        (items <- call_top zot None ;;
         let total_count := Z.of_nat (List.length items) in
         type_counts <- lift (stats_loop items []) ;;
         let stats := VDict [("total_items", VInt total_count);
                             ("item_types", counts_value type_counts)] in
         ret (json_dumps (Some 2) stats))
        (fun e => ret (json_error ("获取库统计信息失败: " +++ str_e e)))
  end.

(** Lines 249-271. *)
Definition get_recent_items : M string :=
  zot <- get_zotero_client ;;
  match zot with
  | None => ret (json_error NOT_CONFIGURED_RESOURCE)
  | Some zot =>
      try_except
        (items <- call_top zot (Some 10) ;;
         recent_items <- lift (for_append recent_items_summary items []) ;;
         ret (json_dumps (Some 2) (VList recent_items)))
        (fun e => ret (json_error ("获取最近条目失败: " +++ str_e e)))
  end.

Definition UNCONFIGURED_REPORT : string :=
  "❌ Zotero未配置" +++ LF +++ "请使用 configure_zotero 工具设置您的API凭据" +++ LF +++ LF
  +++ "需要的信息:" +++ LF +++ "- library_id: 您的Zotero库ID" +++ LF
  +++ "- api_key: 您的Zotero API密钥" +++ LF +++ "- library_type: 'user' 或 'group'".

(** Lines 273-282. *)
Definition check_zotero_config : M string :=
  library_id <- gets ZOTERO_LIBRARY_ID ;;
  api_key <- gets ZOTERO_API_KEY ;;
  if is_empty library_id || is_empty api_key then ret UNCONFIGURED_REPORT
  else
    let masked_key := masked_key api_key in
    library_type <- gets ZOTERO_LIBRARY_TYPE ;;
    ret ("✅ Zotero已配置" +++ LF +++ "库ID: " +++ library_id +++ LF
         +++ "库类型: " +++ library_type +++ LF +++ "API密钥: " +++ masked_key).
End Operations.


(* ================================================================== *)
(** * Vocabulary of the specification *)

(** An item as the client delivers it: a dict whose [data], when present,
    is a dict whose [title], when present, is a string. *)
Definition wf_item (item : value) : bool :=
  match item with
  | VDict d =>
      match dict_get "data" d with
      | None => true
      | Some (VDict data) =>
          match dict_get "title" data with
          | None | Some (VStr _) => true
          | Some _ => false
          end
      | Some _ => false
      end
  | _ => false
  end.

(** A criteria mapping whose [title_contains], when present, is a string. *)
Definition wf_criteria (criteria : dict) : bool :=
  match dict_get "title_contains" criteria with
  | None | Some (VStr _) => true
  | Some _ => false
  end.

(** The [data] of an item, as [item.get("data", {})] gives it. *)
Definition raw_data (item : value) : value :=
  match item with
  | VDict d => with_default (VDict []) (dict_get "data" d)
  | _ => VDict []
  end.

Definition item_data (item : value) : dict :=
  match item with
  | VDict d =>
      match dict_get "data" d with
      | Some (VDict data) => data
      | _ => []
      end
  | _ => []
  end.

(** The item's [itemType]; [None] when it has none. *)
Definition item_type_of (item : value) : value :=
  with_default VNone (dict_get "itemType" (item_data item)).

(** The item's title; the empty string when it has none. *)
Definition item_title (item : value) : string :=
  match dict_get "title" (item_data item) with
  | Some (VStr t) => t
  | _ => ""
  end.



(** The same, as a test. *)
Definition matches {RT : PyRuntime} (criteria : dict) (item : value) : bool :=
  match dict_get "item_type" criteria with
  | Some wanted => py_eq (item_type_of item) wanted
  | None => true
  end &&
  match dict_get "title_contains" criteria with
  | Some (VStr s) => str_in (lower s) (lower (item_title item))
  | _ => true
  end.

(** [l] is [r] and [d] shuffled together, each keeping its order: every
    element of [l] comes from exactly one of the two. *)
Inductive Interleave {A : Type} : list A -> list A -> list A -> Prop :=
| Interleave_nil : Interleave [] [] []
| Interleave_left x r d l : Interleave r d l -> Interleave (x :: r) d (x :: l)
| Interleave_right x r d l : Interleave r d l -> Interleave r (x :: d) (x :: l).

(** The keys handed to [delete_item], oldest first. *)
Definition delete_calls (log : list call) : list value :=
  flat_map (fun c => match c with CallDeleteItem k => [k] | _ => [] end) log.

(** What [should_retain] answers, when it answers. *)
Definition keeps {RT : PyRuntime} (criteria : dict) (item : value) : bool :=
  match should_retain criteria item with
  | Ok b => b
  | Raise _ => false
  end.

Definition answers {RT : PyRuntime} (criteria : dict) (item : value) : Prop :=
  exists b, should_retain criteria item = Ok b.

(** A string made of white space characters only. *)
Definition all_space (s : string) : bool := forallb isspace (chars s).

(** The tools and resources registered on the application. *)
Inductive operation : Type :=
| OpConfigureZotero (library_id api_key : string) (library_type : option string)
| OpListItems (limit : option Z)
| OpDeleteItem (item_key : string)
| OpDeleteItemsBatch (item_keys : list string)
| OpSearchItems (query : string) (item_type : option string)
| OpGetItemDetails (item_key : string)
| OpRetainItemsByCriteria (criteria : dict) (dry_run : option bool)
| OpGetLibraryStats
| OpGetRecentItems
| OpCheckZoteroConfig.

(** The operations that start by asking [get_zotero_client] for a client. *)
Definition uses_client (op : operation) : bool :=
  match op with
  | OpConfigureZotero _ _ _ | OpCheckZoteroConfig => false
  | _ => true
  end.

Section Vocabulary.
Context {RT : PyRuntime} {PZ : PyZotero}.

Definition run (op : operation) : M string :=
  match op with
  | OpConfigureZotero library_id api_key library_type =>
      configure_zotero library_id api_key library_type
  | OpListItems limit => list_items limit
  | OpDeleteItem item_key => delete_item item_key
  | OpDeleteItemsBatch item_keys => delete_items_batch item_keys
  | OpSearchItems query item_type => search_items query item_type
  | OpGetItemDetails item_key => get_item_details item_key
  | OpRetainItemsByCriteria criteria dry_run =>
      retain_items_by_criteria criteria dry_run
  | OpGetLibraryStats => get_library_stats
  | OpGetRecentItems => get_recent_items
  | OpCheckZoteroConfig => check_zotero_config
  end.

(** What an operation answers when there is no client. *)
Definition not_configured_answer (op : operation) : string :=
  match op with
  | OpGetLibraryStats | OpGetRecentItems => json_error NOT_CONFIGURED_RESOURCE
  | _ => NOT_CONFIGURED
  end.

(** One of the two credentials is empty. *)
Definition unconfigured (s : state) : bool :=
  is_empty (ZOTERO_LIBRARY_ID s) || is_empty (ZOTERO_API_KEY s).

(** [m] never raises. *)
Definition total {A} (m : M A) : Prop :=
  forall s, exists a s', m s = (Ok a, s').

(** Every run of [m] takes a state to one that [R] relates to it. *)
Definition frame {A} (R : state -> state -> Prop) (m : M A) : Prop :=
  forall s, R s (snd (m s)).

Definition same_deletes (s s' : state) : Prop :=
  delete_calls (calls s') = delete_calls (calls s).

(** The only calls added are constructions of a client. *)
Definition no_method_call (s s' : state) : Prop :=
  exists extra, calls s' = calls s ++ extra /\
                forallb (fun c => negb (is_method_call c)) extra = true.

(** One deletion attempt per key, in order, each on the world the one
    before it left: the outcome of every attempt, and the final world. *)
Fixpoint attempts (z : Zotero) (keys : list string) (w : World)
  : list (string * res unit) * World :=
  match keys with
  | [] => ([], w)
  | k :: rest =>
      let (r, w1) := zot_delete_item z (VStr k) w in
      let (l, w2) := attempts z rest w1 in
      ((k, r) :: l, w2)
  end.

Definition succeeded (a : string * res unit) : bool :=
  match snd a with
  | Ok _ => true
  | Raise _ => false
  end.

Definition success_count (a : list (string * res unit)) : Z :=
  Z.of_nat (List.length (filter succeeded a)).

(** The (key, error message) pairs of the attempts that raised. *)
Definition failures (a : list (string * res unit)) : list (string * string) :=
  flat_map (fun kr => match snd kr with
                      | Ok _ => []
                      | Raise e => [(fst kr, str_e e)]
                      end) a.

Definition failure_line (f : string * string) : string :=
  fst f +++ ": " +++ snd f.

(** The probe of [configure_zotero] as the client sees it: build a client
    from the three credentials, fetch one item. *)
Definition probe (library_id library_type api_key : string) (w : World)
  : res unit * World :=
  match zotero_Zotero library_id library_type api_key w with
  | (Ok test_client, w1) =>
      match zot_top test_client (Some 1) w1 with
      | (Ok _, w2) => (Ok tt, w2)
      | (Raise e, w2) => (Raise e, w2)
      end
  | (Raise e, w1) => (Raise e, w1)
  end.

Definition probe_answer (library_id library_type : string) (r : res unit) : string :=
  match r with
  | Ok _ =>
      "✅ Zotero配置成功！" +++ LF +++ "库ID: " +++ library_id +++ LF
      +++ "库类型: " +++ library_type
  | Raise e =>
      "❌ Zotero配置失败: " +++ str_e e +++ LF +++ "请检查您的库ID和API密钥是否正确"
  end.

(** The globals right after lines 44-49. *)
Definition stored (library_id api_key library_type : string) (s : state) : state :=
  set_zot None
    (set_credentials (strip library_id) (strip api_key) (strip library_type) s).
End Vocabulary.

(** The summary as section 4.2 of the specification words it, with the
    placeholder for a missing title as a parameter. *)
Definition summary_spec (placeholder : string) (item : value) : res value :=
  match item with
  | VDict d =>
      match with_default (VDict []) (dict_get "data" d) with
      | VDict data =>
          Ok (VDict [("key", with_default VNone (dict_get "key" d));
                     ("title", with_default (VStr placeholder) (dict_get "title" data));
                     ("itemType", with_default VNone (dict_get "itemType" data));
                     ("dateAdded", with_default VNone (dict_get "dateAdded" data))])
      | other => Raise (AttributeError other "get")
      end
  | _ => Raise (AttributeError item "get")
  end.

(* ================================================================== *)
(** * A substitute client, for running the model *)

Module Mock.
(** The remote library is the list of its items; an item is deleted by
    key, and deleting a key that is not there raises. *)
Definition has_key (k : value) (item : value) : bool := py_eq (item_key item) k.

Definition top (limit : option Z) (w : list value) : res (list value) * list value :=
  match limit with
  | Some n => (Ok (firstn (Z.to_nat n) w), w)
  | None => (Ok w, w)
  end.

Definition item (k : value) (w : list value) : res value * list value :=
  match find (has_key k) w with
  | Some i => (Ok i, w)
  | None => (Raise (Exception "Not found"), w)
  end.

Definition delete (k : value) (w : list value) : res unit * list value :=
  if existsb (has_key k) w
  then (Ok tt, filter (fun i => negb (has_key k i)) w)
  else (Raise (Exception "Not found"), w).

(** A client is refused when its key is the word [bad]. *)
Definition connect (library_id library_type api_key : string) (w : list value)
  : res unit * list value :=
  if String.eqb api_key "bad"
  then (Raise (Exception "Forbidden"), w)
  else (Ok tt, w).

#[export] Instance client : PyZotero := {|
  World := list value;
  Zotero := unit;
  zotero_Zotero := connect;
  zot_top := fun _ => top;
  zot_everything := fun _ _ w => (Ok w, w);
  zot_item := fun _ => item;
  zot_delete_item := fun _ => delete
|}.

(** The substitute runtime has a small [lower], enough to run examples: it
    lowers the letters A to Z and the capital letters of the Latin-1 range,
    U+00C0 to U+00DE without the sign U+00D7, which UTF-8 writes as the
    byte 195 and a byte from 128 to 158. *)
Definition lower_char (c : ascii) : ascii :=
  let n := nat_of_ascii c in
  if ((65 <=? n) && (n <=? 90))%nat then ascii_of_nat (n + 32) else c.

Definition latin1_capital (c d : ascii) : bool :=
  ((nat_of_ascii c =? 195) && (128 <=? nat_of_ascii d) && (nat_of_ascii d <=? 158)
   && negb (nat_of_ascii d =? 151))%nat.

Fixpoint small_lower (s : string) : string :=
  match s with
  | EmptyString => EmptyString
  | String c s' =>
      match s' with
      | String d s'' =>
          if latin1_capital c d
          then String c (String (ascii_of_nat (nat_of_ascii d + 32)) (small_lower s''))
          else String (lower_char c) (small_lower s')
      | EmptyString => String (lower_char c) EmptyString
      end
  end.

Definition small_lower_nil (s : string) :
  small_lower s = EmptyString <-> s = EmptyString.
Proof.
  destruct s as [|c [|d s]]; simpl.
  - split; reflexivity.
  - split; discriminate.
  - destruct (latin1_capital c d); split; discriminate.
Defined.

#[export] Instance runtime : PyRuntime := {|
  json_dumps := fun _ _ => "<json>";
  repr := fun _ => "<repr>";
  lower := small_lower;
  lower_nil := small_lower_nil
|}.

Definition book (k title : string) : value :=
  VDict [("key", VStr k);
         ("data", VDict [("title", VStr title); ("itemType", VStr "book")])].

Definition article (k title : string) : value :=
  VDict [("key", VStr k);
         ("data", VDict [("title", VStr title); ("itemType", VStr "journalArticle")])].

(** An item whose [data] has no title. *)
Definition note (k : string) : value :=
  VDict [("key", VStr k); ("data", VDict [("itemType", VStr "note")])].

Definition library : list value :=
  [book "A" "Types and Proofs"; article "B" "A proof engine";
   note "C"; book "D" "Cooking"].

Definition configured (w : list value) : state :=
  mkState "12345" "abcdefghijkl" "user" None w [].
(** No environment variable set. *)
Definition fresh (w : list value) : state := initial_state None None None w.

(** Credentials the substitute client refuses. *)
Definition refused (w : list value) : state :=
  mkState "12345" "bad" "user" None w [].

Definition exec (op : operation) : state -> res string * state := run op.
End Mock.

(* ================================================================== *)
(** * Vocabulary for the other properties *)

(** Neither the first nor the last character is white space. *)
Definition trimmed (s : string) : bool :=
  match chars s with
  | [] => true
  | ch :: rest => negb (isspace ch) && negb (isspace (last rest ch))
  end.

(** A character: a byte that is not a continuation byte, or a run of
    continuation bytes that lacks its lead, then continuation bytes. *)
Definition chunk_ok (ch : string) : bool :=
  match ch with
  | EmptyString => false
  | String _ rest => forallb is_continuation (list_ascii_of_string rest)
  end.

(** A list of characters as [chars] produces them: only the first may lack
    its lead byte. *)
Definition chunked (l : list string) : Prop :=
  Forall (fun ch => chunk_ok ch = true) l /\
  Forall (fun ch => starts_with_continuation ch = false) (tl l).

(** The report of [delete_items_batch] as the specification words it: the
    number of successes, then, when there are failures, a heading and one
    line per (key, message) pair. *)
Definition deletion_report (successes : Z) (failed : list (string * string))
  : string :=
  match failed with
  | [] => "成功删除 " +++ str_of_int successes +++ " 个条目"
  | _ :: _ =>
      "成功删除 " +++ str_of_int successes +++ " 个条目" +++ LF
      +++ "删除失败的条目:" +++ LF
      +++ join LF (map (fun f => fst f +++ ": " +++ snd f) failed)
  end.

(** The summary of an item that has one. *)
Definition summary_of (item : value) : value :=
  match summary_spec "无标题" item with
  | Ok v => v
  | Raise _ => VNone
  end.

Definition summarizable (item : value) : bool :=
  match summary_spec "无标题" item with
  | Ok _ => true
  | Raise _ => false
  end.

(** What [search_items] looks for, said as retention criteria. *)
Definition search_criteria (query : string) (item_type : option string) : dict :=
  match item_type with
  | Some ty => [("item_type", VStr ty); ("title_contains", VStr query)]
  | None => [("title_contains", VStr query)]
  end.

(** The type [get_library_stats] counts an item under. *)
Definition stats_type (item : value) : value :=
  with_default (VStr "unknown") (dict_get "itemType" (item_data item)).

(** How many of the items are counted under a type equal to [k]. *)
Definition count_type (k : value) (items : list value) : Z :=
  Z.of_nat (List.length (filter (fun i => py_eq k (stats_type i)) items)).

Definition counts_total (type_counts : list (value * Z)) : Z :=
  fold_right (fun kn acc => snd kn + acc) 0 type_counts.

(** An item whose [data], when present, is a dict. *)
Definition has_data_dict (item : value) : bool :=
  match item with
  | VDict d =>
      match dict_get "data" d with
      | None | Some (VDict _) => true
      | Some _ => false
      end
  | _ => false
  end.

(** An item [get_library_stats] can count: its [data] is a dict or absent
    and its type can be a dictionary key. *)
Definition countable (item : value) : bool :=
  has_data_dict item && hashable (stats_type item).

(** Every key of the histogram can be a dictionary key. *)
Definition hashable_keys (type_counts : list (value * Z)) : Prop :=
  Forall (fun kn => hashable (fst kn) = true) type_counts.

Section MoreVocabulary.
Context {RT : PyRuntime} {PZ : PyZotero}.

(** The two calls that fetch the whole collection (lines 127 and 172). *)
Definition fetch_everything (z : Zotero) (w : World) : res (list value) * World :=
  match zot_top z None w with
  | (Ok first_page, w1) => zot_everything z first_page w1
  | (Raise e, w1) => (Raise e, w1)
  end.

(** One deletion attempt per key, the keys being any values. *)
Fixpoint attempts_on (z : Zotero) (keys : list value) (w : World)
  : list (value * res unit) * World :=
  match keys with
  | [] => ([], w)
  | k :: rest =>
      let (r, w1) := zot_delete_item z k w in
      let (l, w2) := attempts_on z rest w1 in
      ((k, r) :: l, w2)
  end.

Definition deleted_count (a : list (value * res unit)) : Z :=
  Z.of_nat (List.length (filter (fun kr => match snd kr with
                                           | Ok _ => true
                                           | Raise _ => false
                                           end) a)).

(** The line [retain_items_by_criteria] writes for an attempt that raised. *)
Definition retain_failure_lines (a : list (value * res unit)) : list string :=
  flat_map (fun kr => match snd kr with
                      | Ok _ => []
                      | Raise e => ["删除失败 " +++ py_str (fst kr) +++ ": "
                                    +++ str_e e +++ LF]
                      end) a.

(** The line of the preview for one item. *)
Definition preview_line (item : value) : string :=
  "- " +++ py_str (with_default (VStr UNTITLED) (dict_get "title" (item_data item)))
  +++ " (" +++ py_str (item_key item) +++ ")" +++ LF.

(** The three counting lines every answer of [retain_items_by_criteria]
    starts with. *)
Definition retain_header (items_to_retain items_to_delete : list value) : string :=
  "根据条件筛选结果:" +++ LF
  +++ "保留条目: " +++ str_of_len items_to_retain +++ " 个" +++ LF
  +++ "待删除条目: " +++ str_of_len items_to_delete +++ " 个" +++ LF.

Definition same_credentials (s s' : state) : Prop :=
  ZOTERO_LIBRARY_ID s' = ZOTERO_LIBRARY_ID s /\
  ZOTERO_API_KEY s' = ZOTERO_API_KEY s /\
  ZOTERO_LIBRARY_TYPE s' = ZOTERO_LIBRARY_TYPE s.

(** The credentials are the same and a client that was cached still is. *)
Definition keeps_gateway (s s' : state) : Prop :=
  same_credentials s s' /\ (forall z, zot s = Some z -> zot s' = Some z).
End MoreVocabulary.

(* ================================================================== *)
(** * Facts about strings and lists *)

Lemma append_assoc (a b c : string) : (a +++ b) +++ c = a +++ b +++ c.
Proof. induction a as [|x a IH]; simpl; [reflexivity | now rewrite IH]. Qed.

Lemma append_empty_r (s : string) : s +++ "" = s.
Proof. induction s as [|c s IH]; simpl; [reflexivity | now rewrite IH]. Qed.




Lemma Interleave_filter {A} (p : A -> bool) (l : list A) :
  Interleave (filter p l) (filter (fun x => negb (p x)) l) l.
Proof.
  induction l as [|x l IH]; simpl.
  - constructor.
  - destruct (p x); simpl; now constructor.
Qed.

Lemma Interleave_Permutation {A} (r d l : list A) :
  Interleave r d l -> Permutation (r ++ d) l.
Proof.
  induction 1 as [|x r d l _ IH|x r d l _ IH]; simpl.
  - constructor.
  - now constructor.
  - rewrite <- IH. symmetry. apply Permutation_middle.
Qed.

Lemma Interleave_length {A} (r d l : list A) :
  Interleave r d l -> (List.length r + List.length d = List.length l)%nat.
Proof. induction 1; simpl; lia. Qed.

Lemma Interleave_In {A} (r d l : list A) (x : A) :
  Interleave r d l -> In x l <-> In x r \/ In x d.
Proof. induction 1; simpl; tauto. Qed.

(* ================================================================== *)
(** * The retention filter *)

Section FilterFacts.
Context {RT : PyRuntime}.

Lemma wf_item_data (item : value) :
  wf_item item = true ->
  py_get item "data" (VDict []) = Ok (VDict (item_data item)) /\
  py_get (VDict (item_data item)) "title" (VStr "") = Ok (VStr (item_title item)) /\
  py_get (VDict (item_data item)) "itemType" VNone = Ok (item_type_of item).
Proof.
  destruct item as [| | | | |d]; try discriminate.
  unfold wf_item, item_title, item_type_of, item_data, py_get.
  destruct (dict_get "data" d) as [[| | | | |data]|]; try discriminate.
  - intros H. split; [reflexivity|]. split.
    + destruct (dict_get "title" data) as [[]|]; try discriminate; reflexivity.
    + destruct (dict_get "itemType" data); reflexivity.
  - intros _. repeat split; reflexivity.
Qed.

Lemma should_retain_wf (criteria : dict) (item : value) :
  wf_item item = true -> wf_criteria criteria = true ->
  should_retain criteria item = Ok (matches criteria item).
Proof.
  intros Hi Hc. destruct (wf_item_data item Hi) as (Hd & Ht & Hty).
  unfold should_retain, matches, wf_criteria, dict_in, dict_item, py_ne in *.
  rewrite Hd. cbn [Res.bind].
  destruct (dict_get "item_type" criteria) as [wanted|];
    destruct (dict_get "title_contains" criteria) as [[| | |s| |]|];
    try discriminate; rewrite ?Hty, ?Ht; cbn [Res.bind py_lower];
    try destruct (py_eq (item_type_of item) wanted);
    try destruct (str_in (lower s) (lower (item_title item)));
    reflexivity.
Qed.


Lemma py_get_data (item data : value) :
  py_get item "data" (VDict []) = Ok data -> data = raw_data item.
Proof.
  destruct item as [| | | | |d]; try discriminate. simpl.
  destruct (dict_get "data" d); simpl; congruence.
Qed.

Lemma py_get_item_type (item x : value) :
  py_get (raw_data item) "itemType" VNone = Ok x -> x = item_type_of item.
Proof.
  unfold item_type_of, item_data, raw_data.
  destruct item as [| | | | |d]; simpl.
  1-5: intros [= <-]; reflexivity.
  destruct (dict_get "data" d) as [[| | | | |data]|]; simpl; try discriminate.
  - destruct (dict_get "itemType" data); simpl; congruence.
  - congruence.
Qed.

Lemma py_get_title (item t : value) (h : string) :
  py_get (raw_data item) "title" (VStr "") = Ok t ->
  py_lower t = Ok h ->
  h = lower (item_title item).
Proof.
  unfold item_title, item_data, raw_data.
  destruct item as [| | | | |d]; simpl.
  1-5: intros [= <-] [= <-]; reflexivity.
  destruct (dict_get "data" d) as [[| | | | |data]|]; simpl; try discriminate.
  - destruct (dict_get "title" data) as [[]|]; simpl; intros [= <-]; try discriminate;
      intros [= <-]; reflexivity.
  - intros [= <-] [= <-]. reflexivity.
Qed.

Lemma should_retain_matches (criteria : dict) (item : value) (b : bool) :
  should_retain criteria item = Ok b -> b = matches criteria item.
Proof.
  unfold should_retain, matches, dict_in, dict_item, py_ne.
  destruct (py_get item "data" (VDict [])) as [data|e] eqn:Ed; [|discriminate].
  apply py_get_data in Ed. subst data. cbn [Res.bind].
  destruct (dict_get "item_type" criteria) as [wanted|].
  - destruct (py_get (raw_data item) "itemType" VNone) as [x|e] eqn:Ex;
      [|discriminate].
    apply py_get_item_type in Ex. subst x. cbn [Res.bind].
    destruct (dict_get "title_contains" criteria) as [tc|]; cbn [Res.bind].
    + destruct tc as [| | |s| |]; try discriminate. cbn [py_lower Res.bind].
      destruct (py_get (raw_data item) "title" (VStr "")) as [t|e] eqn:Et;
        [|discriminate]. cbn [Res.bind].
      destruct (py_lower t) as [h|e] eqn:Eh; [|discriminate].
      rewrite (py_get_title item t h Et Eh). cbn [Res.bind].
      intros [= <-].
      destruct (py_eq (item_type_of item) wanted), (str_in _ _); reflexivity.
    + intros [= <-]. destruct (py_eq (item_type_of item) wanted); reflexivity.
  - cbn [Res.bind].
    destruct (dict_get "title_contains" criteria) as [tc|]; cbn [Res.bind].
    + destruct tc as [| | |s| |]; try discriminate. cbn [py_lower Res.bind].
      destruct (py_get (raw_data item) "title" (VStr "")) as [t|e] eqn:Et;
        [|discriminate]. cbn [Res.bind].
      destruct (py_lower t) as [h|e] eqn:Eh; [|discriminate].
      rewrite (py_get_title item t h Et Eh). cbn [Res.bind].
      intros [= <-]. destruct (str_in _ _); reflexivity.
    + intros [= <-]. reflexivity.
Qed.

Lemma partition_loop_ok (criteria : dict) (items r0 d0 : list value) :
  Forall (answers criteria) items ->
  partition_loop criteria items r0 d0 =
  Ok (r0 ++ filter (keeps criteria) items,
      d0 ++ filter (fun i => negb (keeps criteria i)) items).
Proof.
  intros H. revert r0 d0.
  induction H as [|item items [b Hb] _ IH]; intros r0 d0; simpl.
  - now rewrite !app_nil_r.
  - assert (Hk : keeps criteria item = b) by (unfold keeps; now rewrite Hb).
    rewrite Hb, Hk. cbn [Res.bind].
    destruct b; simpl; rewrite IH, <- app_assoc; reflexivity.
Qed.

Lemma partition_loop_answers (criteria : dict) (items r0 d0 r d : list value) :
  partition_loop criteria items r0 d0 = Ok (r, d) ->
  Forall (answers criteria) items.
Proof.
  revert r0 d0. induction items as [|item items IH]; intros r0 d0; simpl.
  - constructor.
  - destruct (should_retain criteria item) as [b|e] eqn:Hb; cbn [Res.bind];
      [|discriminate].
    intros H. constructor; [now exists b|].
    destruct b; eapply IH; eassumption.
Qed.

Lemma partition_filter (criteria : dict) (items r d : list value) :
  partition criteria items = Ok (r, d) ->
  r = filter (keeps criteria) items /\
  d = filter (fun i => negb (keeps criteria i)) items.
Proof.
  unfold partition. intros H.
  pose proof (partition_loop_answers _ _ _ _ _ _ H) as Ha.
  rewrite (partition_loop_ok _ _ _ _ Ha) in H. simpl in H.
  injection H as <- <-. split; reflexivity.
Qed.

Lemma answers_wf (criteria : dict) (items : list value) :
  forallb wf_item items = true -> wf_criteria criteria = true ->
  Forall (answers criteria) items.
Proof.
  intros Hi Hc. rewrite forallb_forall in Hi. apply Forall_forall.
  intros item Hin. exists (matches criteria item).
  apply should_retain_wf; auto.
Qed.

Lemma keeps_answers (criteria : dict) (item : value) :
  answers criteria item -> keeps criteria item = matches criteria item.
Proof.
  intros [b Hb]. unfold keeps. rewrite Hb. now apply should_retain_matches.
Qed.

(** An item the filter answers for is a dict, so [item.get] is safe on it. *)
Lemma answers_item_key (criteria : dict) (item : value) :
  answers criteria item -> py_get item "key" VNone = Ok (item_key item).
Proof.
  intros [b Hb]. unfold should_retain, item_key, py_get in *.
  destruct item; try discriminate.
  destruct (dict_get "key" d); reflexivity.
Qed.



Lemma filter_all {A} (p : A -> bool) (l : list A) :
  (forall x, In x l -> p x = true) ->
  filter p l = l /\ filter (fun x => negb (p x)) l = [].
Proof.
  induction l as [|x l IH]; intros H; simpl; [split; reflexivity|].
  rewrite (H x (or_introl eq_refl)). simpl.
  destruct IH as [-> ->]; [|split; reflexivity].
  intros y Hy. apply H. now right.
Qed.


End FilterFacts.


Section PartitionFacts.
Context {RT : PyRuntime}.

(** C3.  Whenever the filter answers, the two lists are an interleaving of
    the input: each input item is in exactly one of them and both keep the
    input order; so the keys of the two lists together are the keys of the
    input, each as often as there, and no item is in both.  On items and
    criteria of the shapes the data model gives them, the filter answers. *)
Theorem partition_total_exclusive_ordered (criteria : dict) (items : list value) :
  (forallb wf_item items = true -> wf_criteria criteria = true ->
   exists r d, partition criteria items = Ok (r, d)) /\
  (forall r d,
      partition criteria items = Ok (r, d) ->
      Interleave r d items /\
      Permutation (map item_key (r ++ d)) (map item_key items) /\
      (List.length r + List.length d = List.length items)%nat /\
      (forall item, In item items -> In item r \/ In item d) /\
      (forall item, In item r -> In item d -> False)).
Proof.
  split.
  - intros Hi Hc. do 2 eexists. unfold partition.
    rewrite partition_loop_ok by now apply answers_wf. reflexivity.
  - intros r d H. apply partition_filter in H. destruct H as [-> ->].
    pose proof (Interleave_filter (keeps criteria) items) as HI.
    split; [exact HI|]. split; [|split; [|split]].
    + apply Permutation_map. now apply Interleave_Permutation.
    + now apply Interleave_length.
    + intros item Hin. now apply (Interleave_In _ _ _ item HI).
    + intros item Hr Hd. apply filter_In in Hr, Hd.
      destruct Hr as [_ Hr], Hd as [_ Hd]. rewrite Hr in Hd. discriminate.
Qed.

End PartitionFacts.

(** The partition of the sample library by item type. *)
Lemma partition_total_exclusive_ordered_witness :
  (exists r d,
      partition (RT := Mock.runtime) [("item_type", VStr "book")] Mock.library
      = Ok (r, d)) /\
  Interleave [Mock.book "A" "Types and Proofs"; Mock.book "D" "Cooking"]
             [Mock.article "B" "A proof engine"; Mock.note "C"]
             Mock.library.
Proof.
  split.
  - apply (proj1 (partition_total_exclusive_ordered
                    (RT := Mock.runtime)
                    [("item_type", VStr "book")] Mock.library));
      reflexivity.
  - apply (proj2 (partition_total_exclusive_ordered
                    (RT := Mock.runtime)
                    [("item_type", VStr "book")] Mock.library)).
    reflexivity.
Defined.

(* ================================================================== *)
(** * Running the monad *)

Section MonadFacts.
Context {RT : PyRuntime} {PZ : PyZotero}.

Lemma total_ret {A} (a : A) : total (ret a).
Proof. intros s. now exists a, s. Qed.

Lemma total_gets {A} (f : state -> A) : total (gets f).
Proof. intros s. now exists (f s), s. Qed.

Lemma total_modify (f : state -> state) : total (modify f).
Proof. intros s. now exists tt, (f s). Qed.

Lemma total_bind {A B} (m : M A) (k : A -> M B) :
  total m -> (forall a, total (k a)) -> total (bind m k).
Proof.
  intros Hm Hk s. unfold bind. destruct (Hm s) as (a & s' & ->). apply Hk.
Qed.

(** A handler that never raises makes the whole [try] statement total. *)
Lemma total_try {A} (body : M A) (handler : exn -> M A) :
  (forall e, total (handler e)) -> total (try_except body handler).
Proof.
  intros Hh s. unfold try_except.
  destruct (body s) as [[a|e] s']; [now exists a, s' | apply Hh].
Qed.

Section Frame.
Variable R : state -> state -> Prop.
Hypothesis R_refl : forall s, R s s.
Hypothesis R_trans : forall a b c, R a b -> R b c -> R a c.

Lemma frame_ret {A} (a : A) : frame R (ret a).
Proof. intros s. apply R_refl. Qed.

Lemma frame_lift {A} (r : res A) : frame R (lift r).
Proof. intros s. apply R_refl. Qed.

Lemma frame_gets {A} (f : state -> A) : frame R (gets f).
Proof. intros s. apply R_refl. Qed.

Lemma frame_modify (f : state -> state) :
  (forall s, R s (f s)) -> frame R (modify f).
Proof. intros H s. apply H. Qed.

Lemma frame_external {A} (c : call) (f : World -> res A * World) :
  (forall s w, R s (mkState (ZOTERO_LIBRARY_ID s) (ZOTERO_API_KEY s)
                            (ZOTERO_LIBRARY_TYPE s) (zot s) w (calls s ++ [c]))) ->
  frame R (external c f).
Proof.
  intros H s. unfold external. destruct (f (world s)) as [r w]. apply H.
Qed.

Lemma frame_bind {A B} (m : M A) (k : A -> M B) :
  frame R m -> (forall a, frame R (k a)) -> frame R (bind m k).
Proof.
  intros Hm Hk s. unfold bind. specialize (Hm s).
  destruct (m s) as [[a|e] s']; simpl in *; [|assumption].
  eapply R_trans; [eassumption | apply Hk].
Qed.

Lemma frame_try {A} (body : M A) (handler : exn -> M A) :
  frame R body -> (forall e, frame R (handler e)) -> frame R (try_except body handler).
Proof.
  intros Hb Hh s. unfold try_except. specialize (Hb s).
  destruct (body s) as [[a|e] s']; simpl in *; [assumption|].
  eapply R_trans; [eassumption | apply Hh].
Qed.
End Frame.

Lemma same_deletes_refl s : same_deletes s s.
Proof. reflexivity. Qed.

Lemma same_deletes_trans a b c :
  same_deletes a b -> same_deletes b c -> same_deletes a c.
Proof. unfold same_deletes. congruence. Qed.

Lemma delete_calls_app (l1 l2 : list call) :
  delete_calls (l1 ++ l2) = delete_calls l1 ++ delete_calls l2.
Proof. apply flat_map_app. Qed.

Lemma frame_deletes_external {A} (c : call) (f : World -> res A * World) :
  is_delete c = false -> frame same_deletes (external c f).
Proof.
  intros Hc. apply frame_external. intros s w. unfold same_deletes. simpl.
  rewrite delete_calls_app. destruct c; try discriminate; simpl; apply app_nil_r.
Qed.

Lemma no_method_call_refl s : no_method_call s s.
Proof. exists []. split; [now rewrite app_nil_r | reflexivity]. Qed.

Lemma no_method_call_trans a b c :
  no_method_call a b -> no_method_call b c -> no_method_call a c.
Proof.
  intros (x & Hx & Fx) (y & Hy & Fy). exists (x ++ y). split.
  - now rewrite Hy, Hx, app_assoc.
  - rewrite forallb_app, Fx, Fy. reflexivity.
Qed.

(** ** [get_zotero_client] *)

Lemma get_zotero_client_unconfigured (s : state) :
  unconfigured s = true -> get_zotero_client s = (Ok None, s).
Proof.
  unfold unconfigured, get_zotero_client, bind, gets. intros ->. reflexivity.
Qed.

Lemma get_zotero_client_cached (s : state) (z : Zotero) :
  unconfigured s = false -> zot s = Some z ->
  get_zotero_client s = (Ok (Some z), s).
Proof.
  unfold unconfigured, get_zotero_client, bind, gets. intros -> Hz.
  rewrite Hz. now rewrite Hz.
Qed.

Lemma total_get_zotero_client : total get_zotero_client.
Proof.
  unfold get_zotero_client.
  apply total_bind; [apply total_gets | intros library_id].
  apply total_bind; [apply total_gets | intros api_key].
  destruct (is_empty library_id || is_empty api_key); [apply total_ret|].
  apply total_bind; [apply total_gets | intros [z|]]; [apply total_gets|].
  apply total_try. intros e. apply total_ret.
Qed.

(** Sequencing steps that respect a reflexive and transitive relation. *)
Ltac frame_seq Hr Ht :=
  repeat first
    [ apply frame_ret; exact Hr
    | apply frame_gets; exact Hr
    | apply frame_lift; exact Hr
    | apply frame_bind; [exact Ht | | intros ?]
    | apply frame_try; [exact Ht | | intros ?] ].

Lemma frame_deletes_get_zotero_client : frame same_deletes get_zotero_client.
Proof.
  pose proof same_deletes_refl as Hr. pose proof same_deletes_trans as Ht.
  unfold get_zotero_client. frame_seq Hr Ht.
  destruct (is_empty _ || is_empty _); frame_seq Hr Ht.
  match goal with |- frame _ (match ?c with _ => _ end) => destruct c end;
    frame_seq Hr Ht.
  - now apply frame_deletes_external.
  - apply frame_modify. intros s. reflexivity.
Qed.

(** Asking for a client calls nothing but, at most, the constructor. *)
Lemma frame_methods_get_zotero_client : frame no_method_call get_zotero_client.
Proof.
  pose proof no_method_call_refl as Hr. pose proof no_method_call_trans as Ht.
  unfold get_zotero_client. frame_seq Hr Ht.
  destruct (is_empty _ || is_empty _); frame_seq Hr Ht.
  match goal with |- frame _ (match ?c with _ => _ end) => destruct c end;
    frame_seq Hr Ht.
  - apply frame_external. intros s w.
    eexists. split; reflexivity.
  - apply frame_modify. intros s. exists []. split; [|reflexivity].
    simpl. now rewrite app_nil_r.
Qed.

End MonadFacts.

(* ================================================================== *)
(** * The operations never raise *)

Section Totality.
Context {RT : PyRuntime} {PZ : PyZotero}.

Ltac total_seq :=
  repeat first
    [ apply total_ret
    | apply total_gets
    | apply total_modify
    | apply total_get_zotero_client
    | apply total_bind; [ | intros ?]
    | apply total_try; intros ?
    | match goal with
      | |- total (match ?c with _ => _ end) => destruct c
      | |- total (if ?c then _ else _) => destruct c
      end ].

Lemma total_run (op : operation) : total (run op).
Proof.
  destruct op; simpl;
    unfold configure_zotero, probe_connection, list_items, delete_item,
      delete_items_batch, search_items, get_item_details,
      retain_items_by_criteria, get_library_stats, get_recent_items,
      check_zotero_config;
    total_seq.
Qed.

Lemma run_without_client (op : operation) (s s' : state) :
  uses_client op = true ->
  get_zotero_client s = (Ok None, s') ->
  run op s = (Ok (not_configured_answer op), s').
Proof.
  intros Hu Hg.
  destruct op; try discriminate; simpl;
    unfold list_items, delete_item, delete_items_batch, search_items,
      get_item_details, retain_items_by_criteria, get_library_stats,
      get_recent_items, bind;
    rewrite Hg; reflexivity.
Qed.

(** C9.  Every exposed operation, from every state and on every argument,
    returns a text and never raises, although the client calls and the
    accesses to items inside it may.  An operation that needs a client and
    finds a credential empty answers that Zotero is not configured and
    leaves the state as it was: in particular the call log, so nothing was
    asked of the client.  When no client could be had for another reason
    (its construction raised) the answer is the same and the only call made
    is that construction. *)
Theorem every_operation_returns_text (op : operation) (s : state) :
  (exists text s', run op s = (Ok text, s')) /\
  (uses_client op = true -> unconfigured s = true ->
   run op s = (Ok (not_configured_answer op), s)) /\
  (uses_client op = true -> fst (get_zotero_client s) = Ok None ->
   exists s', run op s = (Ok (not_configured_answer op), s') /\
              no_method_call s s').
Proof.
  split; [apply total_run|]. split.
  - intros Hu Hs. apply run_without_client; [assumption|].
    now apply get_zotero_client_unconfigured.
  - intros Hu Hg. pose proof (frame_methods_get_zotero_client s) as Hf.
    destruct (get_zotero_client s) as [r s'] eqn:E. simpl in Hg, Hf. subst r.
    exists s'. split; [|assumption]. now apply run_without_client.
Qed.
End Totality.

(** A search on a library never configured, and a listing with a key the
    substitute client refuses. *)
Lemma every_operation_returns_text_witness :
  Mock.exec (OpSearchItems "proof" None) (Mock.fresh Mock.library)
  = (Ok NOT_CONFIGURED, Mock.fresh Mock.library) /\
  exists s',
    Mock.exec (OpListItems None) (Mock.refused Mock.library)
    = (Ok NOT_CONFIGURED, s') /\
    no_method_call (Mock.refused Mock.library) s'.
Proof.
  split.
  - apply (proj1 (proj2 (every_operation_returns_text
                           (RT := Mock.runtime)
                           (OpSearchItems "proof" None)
                           (Mock.fresh Mock.library))));
      reflexivity.
  - apply (proj2 (proj2 (every_operation_returns_text
                           (RT := Mock.runtime)
                           (OpListItems None)
                           (Mock.refused Mock.library))));
      reflexivity.
Defined.

(* ================================================================== *)
(** * The credential store *)

Lemma is_empty_false (s : string) : is_empty s = false <-> s <> "".
Proof. destruct s; simpl; split; congruence. Qed.

Lemma is_empty_true (s : string) : is_empty s = true <-> s = "".
Proof. destruct s; simpl; split; congruence. Qed.

Lemma str_list_mem_In (x : string) (l : list string) :
  str_list_mem x l = true <-> In x l.
Proof.
  induction l as [|y l IH]; simpl; [split; [discriminate | tauto]|].
  rewrite orb_true_iff, IH, String.eqb_eq. split; intros [H|H]; auto.
Qed.

Lemma lstrip_chars_all_space (l : list string) :
  forallb isspace l = true -> lstrip_chars l = [].
Proof.
  induction l as [|ch l IH]; simpl; [reflexivity|].
  rewrite andb_true_iff. intros [-> H]. auto.
Qed.

Lemma strip_all_space (s : string) : all_space s = true -> strip s = "".
Proof.
  unfold all_space, strip. intros H. now rewrite lstrip_chars_all_space.
Qed.

Section CredentialStore.
Context {RT : PyRuntime} {PZ : PyZotero}.

Lemma configure_rejected (library_id api_key : string) (library_type : option string)
      (s : state) :
  library_id = "" \/ api_key = "" \/
  ~ In (with_default "user" library_type) ["user"; "group"] ->
  exists message,
    configure_zotero library_id api_key library_type s = (Ok message, s) /\
    (message = "错误：库ID和API密钥不能为空" \/
     message = "错误：库类型必须是 'user' 或 'group'").
Proof.
  intros H. unfold configure_zotero.
  destruct (is_empty library_id || is_empty api_key) eqn:E.
  - eexists. split; [reflexivity | now left].
  - destruct (str_list_mem (with_default "user" library_type) ["user"; "group"])
      eqn:Em; simpl.
    + exfalso. apply orb_false_iff in E. destruct E as [E1 E2].
      apply is_empty_false in E1, E2. apply str_list_mem_In in Em.
      destruct H as [H|[H|H]]; auto.
    + eexists. split; [reflexivity | now right].
Qed.

Lemma configure_valid (library_id api_key : string) (library_type : option string)
      (s : state) :
  library_id <> "" -> api_key <> "" ->
  In (with_default "user" library_type) ["user"; "group"] ->
  configure_zotero library_id api_key library_type s =
  probe_connection (stored library_id api_key (with_default "user" library_type) s).
Proof.
  intros H1 H2 H3. unfold configure_zotero.
  apply is_empty_false in H1, H2. rewrite H1, H2. simpl orb. cbv iota.
  apply str_list_mem_In in H3. rewrite H3. reflexivity.
Qed.

(** What the probe does to a state, step by step. *)
Lemma probe_connection_run (t : state) :
  let id := ZOTERO_LIBRARY_ID t in
  let ty := ZOTERO_LIBRARY_TYPE t in
  let key := ZOTERO_API_KEY t in
  exists log,
    probe_connection t =
    (Ok (probe_answer id ty (fst (probe id ty key (world t)))),
     mkState id key ty (zot t) (snd (probe id ty key (world t)))
             (calls t ++ CallZotero id ty key :: log)).
Proof.
  unfold probe_connection, probe, try_except, bind, gets, call_Zotero, call_top,
    external, ret. simpl.
  destruct (zotero_Zotero (ZOTERO_LIBRARY_ID t) (ZOTERO_LIBRARY_TYPE t)
                          (ZOTERO_API_KEY t) (world t)) as [[c|e] w1]; simpl.
  - destruct (zot_top c (Some 1) w1) as [[items|e] w2]; simpl;
      exists [CallTop (Some 1)]; now rewrite <- app_assoc.
  - now exists [].
Qed.

(** C5.  A call of [configure_zotero] with an empty library id, an empty
    key or a library type other than [user] and [group] returns one of the
    two validation messages and leaves the whole state as it was: the three
    credentials, the cached client, the world and the call log.  So
    [get_zotero_client] does after it what it did before. *)
Theorem rejected_configure_changes_nothing
        (library_id api_key : string) (library_type : option string) (s : state) :
  library_id = "" \/ api_key = "" \/
  ~ In (with_default "user" library_type) ["user"; "group"] ->
  exists message,
    configure_zotero library_id api_key library_type s = (Ok message, s) /\
    (message = "错误：库ID和API密钥不能为空" \/
     message = "错误：库类型必须是 'user' 或 'group'") /\
    get_zotero_client (snd (configure_zotero library_id api_key library_type s))
    = get_zotero_client s.
Proof.
  intros H. destruct (configure_rejected _ _ _ s H) as (message & Hrun & Hm).
  exists message. rewrite Hrun. repeat split; assumption.
Qed.

(** C6.  A call of [configure_zotero] that passes validation is the probe
    run from the state in which the three credentials are already replaced
    by the stripped arguments and the cached client is already dropped.
    The probe builds its client from those stored credentials, never
    raises, and leaves credentials and cache as it found them: after the
    call the new credentials are stored and the cache is empty whether the
    probe succeeded or not.  The answer is the success text when the probe
    succeeded and the failure text, carrying the message of the exception,
    when it raised. *)
Theorem configure_commits_before_probe
        (library_id api_key : string) (library_type : option string) (s : state) :
  library_id <> "" -> api_key <> "" ->
  In (with_default "user" library_type) ["user"; "group"] ->
  let ty := with_default "user" library_type in
  let s0 := stored library_id api_key ty s in
  let outcome := probe (strip library_id) (strip ty) (strip api_key) (world s) in
  configure_zotero library_id api_key library_type s = probe_connection s0 /\
  exists s',
    configure_zotero library_id api_key library_type s =
    (Ok (probe_answer (strip library_id) (strip ty) (fst outcome)), s') /\
    ZOTERO_LIBRARY_ID s' = strip library_id /\
    ZOTERO_API_KEY s' = strip api_key /\
    ZOTERO_LIBRARY_TYPE s' = strip ty /\
    zot s' = None /\
    world s' = snd outcome /\
    exists log,
      calls s' = calls s ++
                 CallZotero (strip library_id) (strip ty) (strip api_key) :: log.
Proof.
  intros H1 H2 H3 ty s0 outcome.
  split; [now apply configure_valid|].
  rewrite (configure_valid _ _ _ s H1 H2 H3). fold ty. fold s0.
  destruct (probe_connection_run s0) as (log & Hrun).
  eexists. split; [exact Hrun|]. simpl. repeat split. now exists log.
Qed.

(** C10.  When the library id or the key is not empty but made of white
    space only, and the other arguments are valid, [configure_zotero]
    passes validation and goes on to the probe, yet what it stores for that
    credential is the empty string.  From the state it leaves,
    [get_zotero_client] returns [None] without calling anything and
    [check_zotero_config] reports that Zotero is not configured. *)
Theorem whitespace_credentials_pass_validation
        (library_id api_key : string) (library_type : option string) (s : state) :
  library_id <> "" -> api_key <> "" ->
  In (with_default "user" library_type) ["user"; "group"] ->
  all_space library_id = true \/ all_space api_key = true ->
  let ty := with_default "user" library_type in
  let s' := snd (configure_zotero library_id api_key library_type s) in
  configure_zotero library_id api_key library_type s =
  probe_connection (stored library_id api_key ty s) /\
  ZOTERO_LIBRARY_ID s' = strip library_id /\
  ZOTERO_API_KEY s' = strip api_key /\
  (ZOTERO_LIBRARY_ID s' = "" \/ ZOTERO_API_KEY s' = "") /\
  get_zotero_client s' = (Ok None, s') /\
  check_zotero_config s' = (Ok UNCONFIGURED_REPORT, s').
Proof.
  intros H1 H2 H3 Hw ty s'.
  pose proof (configure_valid _ _ _ s H1 H2 H3) as Hv. fold ty in Hv.
  split; [exact Hv|].
  destruct (probe_connection_run (stored library_id api_key ty s)) as (log & Hrun).
  assert (Hid : ZOTERO_LIBRARY_ID s' = strip library_id)
    by (unfold s'; rewrite Hv, Hrun; reflexivity).
  assert (Hkey : ZOTERO_API_KEY s' = strip api_key)
    by (unfold s'; rewrite Hv, Hrun; reflexivity).
  assert (He : ZOTERO_LIBRARY_ID s' = "" \/ ZOTERO_API_KEY s' = "").
  { rewrite Hid, Hkey. destruct Hw as [Hw|Hw]; [left | right];
      now apply strip_all_space. }
  assert (Hu : unconfigured s' = true).
  { unfold unconfigured. apply orb_true_iff.
    destruct He as [He|He]; [left | right]; now apply is_empty_true. }
  repeat split; try assumption.
  - now apply get_zotero_client_unconfigured.
  - unfold check_zotero_config, bind, gets. unfold unconfigured in Hu.
    now rewrite Hu.
Qed.
End CredentialStore.

(** An empty key, then a type that is neither [user] nor [group]. *)
Lemma rejected_configure_changes_nothing_witness :
  (exists message,
      Mock.exec (OpConfigureZotero "67890" "" None) (Mock.configured Mock.library)
      = (Ok message, Mock.configured Mock.library)) /\
  (exists message,
      Mock.exec (OpConfigureZotero "67890" "secret" (Some "team"))
                (Mock.configured Mock.library)
      = (Ok message, Mock.configured Mock.library)).
Proof.
  split.
  - destruct (rejected_configure_changes_nothing
                "67890" "" None (Mock.configured Mock.library))
      as (message & H & _).
    + right. left. reflexivity.
    + now exists message.
  - destruct (rejected_configure_changes_nothing
                "67890" "secret" (Some "team")
                (Mock.configured Mock.library))
      as (message & H & _).
    + right. right. simpl. intros [H|[H|[]]]; discriminate.
    + now exists message.
Defined.

(** New credentials with a key the substitute client refuses: the probe
    fails and the credentials are stored all the same. *)
Lemma configure_commits_before_probe_witness :
  exists s',
    Mock.exec (OpConfigureZotero " 67890 " "bad" None) (Mock.configured Mock.library)
    = (Ok ("❌ Zotero配置失败: Forbidden" +++ LF
           +++ "请检查您的库ID和API密钥是否正确"), s') /\
    ZOTERO_LIBRARY_ID s' = "67890" /\
    ZOTERO_API_KEY s' = "bad" /\
    zot s' = None.
Proof.
  destruct (configure_commits_before_probe
              " 67890 " "bad" None (Mock.configured Mock.library))
    as (_ & s' & Hrun & Hid & Hkey & _ & Hzot & _).
  - discriminate.
  - discriminate.
  - left. reflexivity.
  - exists s'. repeat split; assumption.
Defined.

(** A library id that is one space. *)
Lemma whitespace_credentials_pass_validation_witness :
  let s' := snd (Mock.exec (OpConfigureZotero " " "abcdefghijkl" None)
                           (Mock.configured Mock.library)) in
  ZOTERO_LIBRARY_ID s' = "" /\
  get_zotero_client s' = (Ok None, s') /\
  check_zotero_config s' = (Ok UNCONFIGURED_REPORT, s').
Proof.
  destruct (whitespace_credentials_pass_validation
              " " "abcdefghijkl" None
              (Mock.configured Mock.library))
    as (_ & Hid & _ & _ & Hget & Hcheck).
  - discriminate.
  - discriminate.
  - left. reflexivity.
  - left. reflexivity.
  - repeat split; assumption.
Defined.

(* ================================================================== *)
(** * Characters, and the masked key *)

Lemma chars_head (t ch : string) (more : list string) :
  chars t = ch :: more ->
  starts_with_continuation ch = starts_with_continuation t.
Proof.
  destruct t as [|c t]; simpl; [discriminate|].
  destruct (chars t) as [|x xs]; [|destruct (starts_with_continuation x)];
    intros [= <- <-]; reflexivity.
Qed.

Lemma concat_chars (s : string) : concat_str (chars s) = s.
Proof.
  induction s as [|c s IH]; simpl; [reflexivity|].
  destruct (chars s) as [|x xs]; simpl in *; [now rewrite <- IH|].
  destruct (starts_with_continuation x); simpl; now rewrite IH.
Qed.

Lemma concat_str_app (l1 l2 : list string) :
  concat_str (l1 ++ l2) = concat_str l1 +++ concat_str l2.
Proof.
  induction l1 as [|x l1 IH]; simpl; [reflexivity|].
  rewrite IH. clear IH. induction x as [|c x IHx]; simpl; [reflexivity|].
  now rewrite IHx.
Qed.

Lemma chunked_chars (s : string) : chunked (chars s).
Proof.
  induction s as [|c s [Hok Hlead]]; simpl; [split; constructor|].
  destruct (chars s) as [|x xs]; [split; repeat constructor|].
  destruct (starts_with_continuation x) eqn:E.
  - split; [|exact Hlead]. inversion Hok as [|? ? Hx Hxs]; subst.
    constructor; [|exact Hxs]. destruct x as [|c' x]; [discriminate|].
    simpl in *. now rewrite E, Hx.
  - split; [constructor; [reflexivity | exact Hok]|].
    constructor; [exact E | exact Hlead].
Qed.

(** Continuation bytes in front of a string that starts a new character
    form a character of their own. *)
Lemma chars_continuation_app (u t : string) :
  forallb is_continuation (list_ascii_of_string u) = true ->
  starts_with_continuation t = false ->
  chars (u +++ t) = match u with
                    | EmptyString => chars t
                    | String _ _ => u :: chars t
                    end.
Proof.
  intros Hu Ht. induction u as [|c u IH]; [reflexivity|].
  simpl in Hu. apply andb_true_iff in Hu. destruct Hu as [Hc Hu].
  specialize (IH Hu). cbn [String.append chars]. rewrite IH.
  destruct u as [|c' u].
  - destruct (chars t) as [|x xs] eqn:E; [reflexivity|].
    now rewrite (chars_head t x xs E), Ht.
  - simpl in Hu. apply andb_true_iff in Hu. destruct Hu as [Hc' _].
    cbn [starts_with_continuation]. now rewrite Hc'.
Qed.

Lemma chars_chunk_app (ch t : string) :
  chunk_ok ch = true -> starts_with_continuation t = false ->
  chars (ch +++ t) = ch :: chars t.
Proof.
  intros Hch Ht. destruct ch as [|c u]; [discriminate|]. simpl in Hch.
  cbn [String.append chars]. rewrite (chars_continuation_app u t Hch Ht).
  destruct u as [|c' u].
  - destruct (chars t) as [|x xs] eqn:E; [reflexivity|].
    now rewrite (chars_head t x xs E), Ht.
  - simpl in Hch. apply andb_true_iff in Hch. destruct Hch as [Hc' _].
    cbn [starts_with_continuation]. now rewrite Hc'.
Qed.

Lemma chars_concat (l : list string) : chunked l -> chars (concat_str l) = l.
Proof.
  induction l as [|ch l IH]; intros [Hok Hlead]; [reflexivity|].
  inversion Hok as [|? ? Hch Hl]; subst. simpl in Hlead. cbn [concat_str].
  assert (Hc : chunked l) by (split; [exact Hl | destruct l; [constructor|];
                                      now inversion Hlead]).
  rewrite chars_chunk_app, (IH Hc); [reflexivity | exact Hch |].
  destruct l as [|x l]; [reflexivity|].
  inversion Hlead as [|? ? Hx _]; subst. inversion Hl as [|? ? Hxo _]; subst.
  destruct x as [|c x]; [discriminate | exact Hx].
Qed.

Lemma chunked_tail (ch : string) (l : list string) : chunked (ch :: l) -> chunked l.
Proof.
  intros [Hok Hlead]. inversion Hok; subst. split; [assumption|].
  simpl in Hlead. destruct l; [constructor | now inversion Hlead].
Qed.

Lemma chunked_firstn (n : nat) (l : list string) : chunked l -> chunked (firstn n l).
Proof.
  intros [Hok Hlead]. split.
  - clear Hlead. revert l Hok. induction n as [|n IH]; intros [|x l] H; simpl;
      try constructor; inversion H; subst; auto.
  - destruct n as [|n]; [constructor|]. destruct l as [|x l]; [constructor|].
    simpl in *. clear Hok. revert l Hlead.
    induction n as [|n IH]; intros [|y l] H; simpl; try constructor;
      inversion H; subst; auto.
Qed.

Lemma chunked_app_stars (l : list string) (m : nat) :
  chunked l -> chunked (l ++ repeat "*" m).
Proof.
  intros [Hok Hlead]. split.
  - apply Forall_app. split; [exact Hok|].
    apply Forall_forall. intros x Hx. apply repeat_spec in Hx. now subst.
  - destruct l as [|x l]; simpl in *.
    + destruct m; simpl; [constructor|].
      apply Forall_forall. intros y Hy. apply repeat_spec in Hy. now subst.
    + apply Forall_app. split; [exact Hlead|].
      apply Forall_forall. intros y Hy. apply repeat_spec in Hy. now subst.
Qed.

Lemma concat_repeat_star (m : nat) : concat_str (repeat "*" m) = repeat_str "*" m.
Proof. induction m as [|m IH]; simpl; [reflexivity | now rewrite IH]. Qed.

Lemma chars_slice_to (n : nat) (s : string) :
  chars (slice_to n s) = firstn n (chars s).
Proof.
  unfold slice_to. apply chars_concat, chunked_firstn, chunked_chars.
Qed.

Lemma masked_key_short (api_key : string) :
  (List.length (chars api_key) <= 8)%nat ->
  masked_key api_key = repeat_str "*" (List.length (chars api_key)).
Proof.
  intros H. unfold masked_key, len, str_mul.
  destruct (Z.gtb_spec (Z.of_nat (List.length (chars api_key))) 8) as [Hgt|Hle];
    [lia|].
  now rewrite Nat2Z.id.
Qed.

Lemma masked_key_long (api_key : string) :
  (8 < List.length (chars api_key))%nat ->
  masked_key api_key =
  slice_to 8 api_key +++ repeat_str "*" (List.length (chars api_key) - 8).
Proof.
  intros H. unfold masked_key, len, str_mul.
  destruct (Z.gtb_spec (Z.of_nat (List.length (chars api_key))) 8) as [Hgt|Hle];
    [|lia].
  do 2 f_equal. lia.
Qed.

(** The characters of the masked key. *)
Lemma chars_masked_key (api_key : string) :
  chars (masked_key api_key) =
  if (8 <? List.length (chars api_key))%nat
  then firstn 8 (chars api_key) ++ repeat "*" (List.length (chars api_key) - 8)
  else repeat "*" (List.length (chars api_key)).
Proof.
  destruct (Nat.ltb_spec 8 (List.length (chars api_key))) as [H|H].
  - rewrite masked_key_long by assumption. unfold slice_to.
    rewrite <- concat_repeat_star, <- concat_str_app.
    apply chars_concat, chunked_app_stars, chunked_firstn, chunked_chars.
  - rewrite masked_key_short by assumption. rewrite <- concat_repeat_star.
    apply chars_concat. apply (chunked_app_stars []). split; constructor.
Qed.

Section MaskedKey.
Context {PZ : PyZotero}.

(** C7.  Counted in characters, the masked key is as long as the key.  A
    key of at most eight characters is shown as that many mask characters;
    a longer one as its first eight characters followed by one mask
    character for each of the others.  Character by character: position
    [i] shows the key's own character when the key is longer than eight
    and [i] is below eight, and the mask character otherwise.
    [check_zotero_config], when both credentials are set, ends its report
    with the key masked so and changes nothing. *)
Theorem masked_key_shape (api_key : string) :
  let n := List.length (chars api_key) in
  List.length (chars (masked_key api_key)) = n /\
  ((n <= 8)%nat -> masked_key api_key = repeat_str "*" n) /\
  ((8 < n)%nat ->
   masked_key api_key = slice_to 8 api_key +++ repeat_str "*" (n - 8) /\
   chars (slice_to 8 api_key) = firstn 8 (chars api_key)) /\
  (forall i, (i < n)%nat ->
             nth_error (chars (masked_key api_key)) i =
             if ((8 <? n) && (i <? 8))%nat then nth_error (chars api_key) i
             else Some "*") /\
  (forall s : state,
      ZOTERO_API_KEY s = api_key -> unconfigured s = false ->
      check_zotero_config s =
      (Ok ("✅ Zotero已配置" +++ LF +++ "库ID: " +++ ZOTERO_LIBRARY_ID s +++ LF
           +++ "库类型: " +++ ZOTERO_LIBRARY_TYPE s +++ LF
           +++ "API密钥: " +++ masked_key api_key), s)).
Proof.
  intros n. subst n. split; [|split; [|split; [|split]]].
  - rewrite chars_masked_key.
    destruct (Nat.ltb_spec 8 (List.length (chars api_key))) as [H|H].
    + rewrite length_app, length_firstn, repeat_length. lia.
    + apply repeat_length.
  - apply masked_key_short.
  - intros H. split; [now apply masked_key_long | apply chars_slice_to].
  - intros i Hi. rewrite chars_masked_key.
    destruct (Nat.ltb_spec 8 (List.length (chars api_key))) as [H|H]; cbn [andb].
    + destruct (Nat.ltb_spec i 8) as [Hi8|Hi8].
      * rewrite nth_error_app1 by (rewrite length_firstn; lia).
        rewrite nth_error_firstn.
        destruct (Nat.ltb_spec i 8); [reflexivity | lia].
      * rewrite nth_error_app2 by (rewrite length_firstn; lia).
        apply nth_error_repeat. rewrite length_firstn. lia.
    + now apply nth_error_repeat.
  - intros s <- Hu. unfold check_zotero_config, bind, gets, ret.
    unfold unconfigured in Hu. now rewrite Hu.
Qed.
End MaskedKey.

(** A key of twelve characters, a key of five, and a key of eight
    characters that takes ten bytes. *)
Lemma masked_key_shape_witness :
  masked_key "abcdefghijkl" = "abcdefgh****" /\
  masked_key "abcde" = "*****" /\
  masked_key "pässwörd" = "********" /\
  nth_error (chars (masked_key "abcdefghijkl")) 9 = Some "*" /\
  snd (check_zotero_config (Mock.configured Mock.library))
  = Mock.configured Mock.library.
Proof.
  pose proof (masked_key_shape (PZ := Mock.client) "abcdefghijkl")
    as (_ & _ & Hlong & Hget & Hcheck).
  pose proof (masked_key_shape (PZ := Mock.client) "abcde") as (_ & Hshort & _).
  pose proof (masked_key_shape (PZ := Mock.client) "pässwörd") as (_ & Hwide & _).
  split; [|split; [|split; [|split]]].
  - apply Hlong. simpl. lia.
  - apply Hshort. simpl. lia.
  - apply Hwide. simpl. lia.
  - apply (Hget 9%nat). simpl. lia.
  - rewrite (Hcheck (Mock.configured Mock.library)); reflexivity.
Defined.

(* ================================================================== *)
(** * The item summaries *)

Lemma list_items_summary_spec (item : value) :
  list_items_summary item = summary_spec "无标题" item.
Proof.
  destruct item as [| | | | |d]; try reflexivity.
  unfold list_items_summary, summary_spec, py_get, UNTITLED. cbn [Res.bind].
  destruct (dict_get "key" d);
    destruct (dict_get "data" d) as [[| | | | |data]|];
    cbn [Res.bind with_default]; try reflexivity;
    destruct (dict_get "title" data); destruct (dict_get "itemType" data);
    destruct (dict_get "dateAdded" data); reflexivity.
Qed.

Lemma data_summary_spec (item data : value) :
  py_get item "data" (VDict []) = Ok data ->
  data_summary item data = summary_spec "无标题" item.
Proof.
  destruct item as [| | | | |d]; try discriminate.
  unfold data_summary, summary_spec, py_get, UNTITLED.
  intros H.
  assert (Hd : with_default (VDict []) (dict_get "data" d) = data)
    by (destruct (dict_get "data" d); simpl; congruence).
  rewrite Hd. clear H Hd.
  destruct (dict_get "key" d); destruct data as [| | | | |data];
    cbn [Res.bind with_default]; try reflexivity;
    destruct (dict_get "title" data); destruct (dict_get "itemType" data);
    destruct (dict_get "dateAdded" data); reflexivity.
Qed.

Lemma bound_summary_spec (item : value) :
  (data <- py_get item "data" (VDict []) ;; data_summary item data)%res
  = summary_spec "无标题" item.
Proof.
  destruct (py_get item "data" (VDict [])) as [data|e] eqn:E; cbn [Res.bind].
  - now apply data_summary_spec.
  - destruct item; try (simpl in E; injection E as <-; reflexivity).
    unfold py_get in E. destruct (dict_get "data" d); discriminate.
Qed.

(** C8, amended.  The dict built for an item is the same in [list_items],
    in [search_items] and in [get_recent_items], whatever the item: the
    four fields [key], [title], [itemType], [dateAdded], in this order, a
    missing [key], [itemType] or [dateAdded] being [None] and a missing
    title the placeholder [无标题]; and the same exception when the item,
    or its [data], is not a dict.  The dict [search_items] builds from the
    [data] it has bound is that one too. *)
Theorem summaries_share_one_shape (item : value) :
  list_items_summary item = summary_spec "无标题" item /\
  search_items_summary item = summary_spec "无标题" item /\
  recent_items_summary item = summary_spec "无标题" item /\
  (forall data, py_get item "data" (VDict []) = Ok data ->
                data_summary item data = summary_spec "无标题" item).
Proof.
  split; [apply list_items_summary_spec|].
  split; [apply bound_summary_spec|].
  split; [apply bound_summary_spec|].
  intros data. apply data_summary_spec.
Qed.

(** The summary of a note, which has no title. *)
Lemma summaries_share_one_shape_witness :
  data_summary (Mock.note "C") (VDict [("itemType", VStr "note")])
  = Ok (VDict [("key", VStr "C"); ("title", VStr "无标题");
               ("itemType", VStr "note"); ("dateAdded", VNone)]).
Proof.
  rewrite (proj2 (proj2 (proj2 (summaries_share_one_shape (Mock.note "C"))))
                 (VDict [("itemType", VStr "note")]) eq_refl).
  reflexivity.
Defined.

(** C8 as the specification words it fails on an item without a title: the
    title of its summary is not the string [Untitled]. *)
Lemma untitled_placeholder_counterexample :
  list_items_summary (Mock.note "C") <> summary_spec "Untitled" (Mock.note "C").
Proof. vm_compute. discriminate. Qed.

(* ================================================================== *)
(** * Deleting: the batch tool and the retention workflow *)

Section Deleting.
Context {RT : PyRuntime} {PZ : PyZotero}.

Lemma success_count_cons (k : string) (r : res unit) (l : list (string * res unit)) :
  success_count ((k, r) :: l) =
  (match r with Ok _ => 1 | Raise _ => 0 end) + success_count l.
Proof.
  unfold success_count. simpl. unfold succeeded at 1. simpl.
  destruct r; simpl List.length; lia.
Qed.

Lemma attempts_keys (z : Zotero) (keys : list string) (w : World) :
  map fst (fst (attempts z keys w)) = keys.
Proof.
  revert w. induction keys as [|k keys IH]; intros w; simpl; [reflexivity|].
  destruct (zot_delete_item z (VStr k) w) as [r w1].
  specialize (IH w1). destruct (attempts z keys w1) as [l w2]. simpl in *.
  now rewrite IH.
Qed.

Lemma attempts_count (a : list (string * res unit)) :
  success_count a + Z.of_nat (List.length (failures a)) = Z.of_nat (List.length a).
Proof.
  induction a as [|[k r] a IH]; [reflexivity|].
  rewrite success_count_cons. unfold failures in *. simpl flat_map.
  destruct r; simpl snd; cbn iota; simpl List.length; lia.
Qed.

(** The loop of [delete_items_batch] from any value of its accumulators. *)
Lemma delete_batch_loop_run (z : Zotero) (keys : list string)
      (n : Z) (errors : list string) (s : state) :
  delete_batch_loop z keys n errors s =
  (Ok (n + success_count (fst (attempts z keys (world s))),
       errors ++ map failure_line (failures (fst (attempts z keys (world s))))),
   mkState (ZOTERO_LIBRARY_ID s) (ZOTERO_API_KEY s) (ZOTERO_LIBRARY_TYPE s) (zot s)
           (snd (attempts z keys (world s)))
           (calls s ++ map (fun k => CallDeleteItem (VStr k)) keys)).
Proof.
  revert n errors s. induction keys as [|k keys IH]; intros n errors s.
  - destruct s. simpl. unfold ret, success_count. simpl.
    now rewrite Z.add_0_r, !app_nil_r.
  - cbn [delete_batch_loop attempts].
    unfold bind at 1. unfold try_except, bind, call_delete_item, external, ret.
    destruct (zot_delete_item z (VStr k) (world s)) as [[[]|e] w1];
      cbn [fst snd]; rewrite IH; cbn [world calls ZOTERO_LIBRARY_ID ZOTERO_API_KEY
                                       ZOTERO_LIBRARY_TYPE zot];
      destruct (attempts z keys w1) as [l w2]; cbn [fst snd];
      rewrite success_count_cons; unfold failures; cbn [flat_map fst snd map];
      rewrite <- !app_assoc; cbn [app map];
      rewrite ?Z.add_assoc, ?Z.add_0_r; reflexivity.
Qed.

Lemma batch_report_text (n : Z) (failed : list (string * string)) :
  batch_report n (map failure_line failed) = deletion_report n failed.
Proof.
  destruct failed as [|f failed]; [reflexivity|].
  unfold batch_report, deletion_report. cbn [map].
  now rewrite !append_assoc.
Qed.

(** C4.  With a client [z] at hand, [delete_items_batch] makes one
    deletion attempt per key, in the order of the keys, whatever the
    earlier attempts did: the calls it logs are exactly one [delete_item]
    per key.  It never raises.  The text it returns states the number of
    attempts that succeeded and, when some raised, lists after a heading
    one line [key: message] per attempt that raised, in the order of the
    keys.  Successes and failures together are as many as the keys. *)
Theorem delete_items_batch_isolates_failures
        (item_keys : list string) (s s1 : state) (z : Zotero) :
  get_zotero_client s = (Ok (Some z), s1) ->
  let a := fst (attempts z item_keys (world s1)) in
  exists s',
    delete_items_batch item_keys s =
    (Ok (deletion_report (success_count a) (failures a)), s') /\
    world s' = snd (attempts z item_keys (world s1)) /\
    calls s' = calls s1 ++ map (fun k => CallDeleteItem (VStr k)) item_keys /\
    map fst a = item_keys /\
    success_count a + Z.of_nat (List.length (failures a))
    = Z.of_nat (List.length item_keys).
Proof.
  intros Hget a. unfold delete_items_batch. unfold bind at 1. rewrite Hget.
  unfold try_except. unfold bind at 1. rewrite delete_batch_loop_run.
  cbn [fst snd app]. rewrite Z.add_0_l. fold a. rewrite batch_report_text.
  eexists. split; [reflexivity|]. cbn [world calls].
  split; [reflexivity|]. split; [reflexivity|].
  split; [apply attempts_keys|].
  rewrite attempts_count. unfold a.
  now rewrite <- (attempts_keys z item_keys (world s1)) at 2; rewrite length_map.
Qed.

(** The deleting loop of [retain_items_by_criteria], on items that are
    dicts: one [delete_item] per item, on its key, in order. *)
Lemma retain_delete_loop_run (z : Zotero) (items : list value)
      (result : string) (n : Z) (s : state) :
  Forall (fun i => py_get i "key" VNone = Ok (item_key i)) items ->
  exists result' n' s',
    retain_delete_loop z items result n s = (Ok (result', n'), s') /\
    calls s' = calls s ++ map (fun i => CallDeleteItem (item_key i)) items.
Proof.
  intros H. revert result n s.
  induction H as [|item items Hk _ IH]; intros result n s.
  - exists result, n, s. split; [reflexivity|]. simpl. now rewrite app_nil_r.
  - cbn [retain_delete_loop].
    unfold bind at 1. unfold try_except, bind, lift, call_delete_item, external, ret.
    rewrite Hk.
    destruct (zot_delete_item z (item_key item) (world s)) as [[[]|e] w1];
      cbn [fst snd];
      match goal with
      | |- context [retain_delete_loop z items ?r ?m ?t] =>
          destruct (IH r m t) as (result' & n' & s' & Hrun & Hcalls)
      end;
      exists result', n', s'; (split; [exact Hrun|]);
      rewrite Hcalls; cbn [calls map]; now rewrite <- app_assoc.
Qed.

Lemma frame_deletes_dry_run (criteria : dict) (dry_run : option bool) :
  dry_run <> Some false ->
  frame same_deletes (retain_items_by_criteria criteria dry_run).
Proof.
  intros Hdry.
  assert (Hd : with_default true dry_run = true)
    by (destruct dry_run as [[|]|]; [reflexivity | congruence | reflexivity]).
  pose proof same_deletes_refl as Hr. pose proof same_deletes_trans as Ht.
  unfold retain_items_by_criteria. rewrite Hd.
  apply frame_bind; [exact Ht | apply frame_deletes_get_zotero_client |].
  intros [z|]; [|now apply frame_ret].
  apply frame_try; [exact Ht | | intros e; now apply frame_ret].
  apply frame_bind; [exact Ht | now apply frame_deletes_external | intros page].
  apply frame_bind; [exact Ht | now apply frame_deletes_external | intros all_items].
  apply frame_bind; [exact Ht | now apply frame_lift | intros parts].
  cbv zeta. cbv iota.
  apply frame_bind; [exact Ht | now apply frame_lift | intros result].
  destruct (_ >? _); now apply frame_ret.
Qed.

(** C1.  Unless [dry_run] is given as [False], a call of
    [retain_items_by_criteria] adds no [delete_item] to the calls made on
    the client, from any state and whatever the client answers: left out,
    the argument counts as [True].  Given as [False], with a client at
    hand and the items fetched and filtered, the calls made after the two
    fetching calls are exactly one [delete_item] per item of the delete
    list, on its key, in the order of the list, which is the order in
    which the items were fetched. *)
Theorem retain_deletes_only_on_explicit_false
        (criteria : dict) (dry_run : option bool) (s : state) :
  (dry_run <> Some false ->
   delete_calls (calls (snd (retain_items_by_criteria criteria dry_run s)))
   = delete_calls (calls s)) /\
  (dry_run = Some false ->
   forall (z : Zotero) (s1 : state) (page all_items r d : list value) (w2 w3 : World),
     get_zotero_client s = (Ok (Some z), s1) ->
     zot_top z None (world s1) = (Ok page, w2) ->
     zot_everything z page w2 = (Ok all_items, w3) ->
     partition criteria all_items = Ok (r, d) ->
     calls (snd (retain_items_by_criteria criteria dry_run s)) =
     calls s1 ++ [CallTop None; CallEverything page]
           ++ map (fun i => CallDeleteItem (item_key i)) d).
Proof.
  split.
  - intros Hdry. now apply frame_deletes_dry_run.
  - intros -> z s1 page all_items r d w2 w3 Hget Htop Hall Hpart.
    assert (Hkeys : Forall (fun i => py_get i "key" VNone = Ok (item_key i)) d).
    { pose proof (partition_loop_answers _ _ _ _ _ _ Hpart) as Ha.
      apply partition_filter in Hpart. destruct Hpart as [_ ->].
      rewrite Forall_forall in *. intros i Hi. apply filter_In in Hi.
      eapply answers_item_key. apply Ha. apply Hi. }
    unfold retain_items_by_criteria. cbn [with_default].
    unfold bind at 1. rewrite Hget.
    unfold try_except. unfold bind at 1. unfold call_top at 1, external at 1.
    rewrite Htop. unfold bind at 1. unfold call_everything at 1, external at 1.
    cbn [world]. rewrite Hall. unfold bind at 1. unfold lift at 1.
    rewrite Hpart. cbv zeta. cbn [fst snd]. cbv iota. unfold bind at 1.
    match goal with
    | |- context [retain_delete_loop z d ?res0 0 ?t] =>
        destruct (retain_delete_loop_run z d res0 0 t Hkeys)
          as (result' & n' & s' & Hrun & Hcalls)
    end.
    rewrite Hrun. cbn [fst snd ret]. rewrite Hcalls. cbn [calls].
    now rewrite <- !app_assoc.
Qed.
End Deleting.

(** Deleting A, B and C from a library that holds A and C. *)
Lemma delete_items_batch_isolates_failures_witness :
  exists s',
    Mock.exec (OpDeleteItemsBatch ["A"; "B"; "C"])
              (Mock.configured [Mock.book "A" "Types and Proofs"; Mock.note "C"])
    = (Ok ("成功删除 2 个条目" +++ LF +++ "删除失败的条目:" +++ LF
           +++ "B: Not found"), s') /\
    world s' = [] /\
    delete_calls (calls s') = [VStr "A"; VStr "B"; VStr "C"].
Proof.
  destruct (delete_items_batch_isolates_failures
              (PZ := Mock.client) ["A"; "B"; "C"]
              (Mock.configured [Mock.book "A" "Types and Proofs"; Mock.note "C"])
              _ tt eq_refl)
    as (s' & Hrun & Hworld & Hcalls & _).
  exists s'. split; [exact Hrun|]. split; [exact Hworld|].
  rewrite Hcalls. reflexivity.
Defined.

(** Keeping the books of the sample library: a preview deletes nothing, a
    run with [dry_run=False] deletes B and C, in this order. *)
Lemma retain_deletes_only_on_explicit_false_witness :
  delete_calls
    (calls (snd (Mock.exec (OpRetainItemsByCriteria [("item_type", VStr "book")] None)
                           (Mock.configured Mock.library)))) = [] /\
  delete_calls
    (calls (snd (Mock.exec (OpRetainItemsByCriteria [("item_type", VStr "book")]
                                                    (Some false))
                           (Mock.configured Mock.library))))
  = [VStr "B"; VStr "C"].
Proof.
  split.
  - apply (proj1 (retain_deletes_only_on_explicit_false
                    (RT := Mock.runtime) (PZ := Mock.client)
                    [("item_type", VStr "book")] None
                    (Mock.configured Mock.library))).
    discriminate.
  - unfold Mock.exec, run.
    rewrite (proj2 (retain_deletes_only_on_explicit_false
                      (RT := Mock.runtime) (PZ := Mock.client)
                      [("item_type", VStr "book")] (Some false)
                      (Mock.configured Mock.library))
                   eq_refl tt _ Mock.library Mock.library _ _ Mock.library Mock.library
                   eq_refl eq_refl eq_refl eq_refl).
    reflexivity.
Defined.

(* ================================================================== *)
(** * The client gateway and the stored credentials *)

Lemma lstrip_chars_head (l r : list string) (a : string) :
  lstrip_chars l = a :: r -> isspace a = false.
Proof.
  induction l as [|x l IH]; simpl; [discriminate|].
  destruct (isspace x) eqn:E; [exact IH|]. intros [= <- _]. exact E.
Qed.

Lemma rstrip_chars_head (l r : list string) (a : string) :
  rstrip_chars l = a :: r -> exists l', l = a :: l'.
Proof.
  destruct l as [|x l]; simpl; [discriminate|].
  destruct (rstrip_chars l); [destruct (isspace x)|]; intros H;
    try discriminate; injection H as <- _; now exists l.
Qed.

Lemma last_default {A} (a b : A) (l : list A) :
  l <> [] -> last l a = last l b.
Proof.
  induction l as [|x l IH]; [congruence|]. intros _.
  destruct l as [|y l]; [reflexivity|]. apply IH. discriminate.
Qed.

Lemma last_cons {A} (y x : A) (ys : list A) : last (y :: ys) x = last ys y.
Proof.
  destruct ys as [|z zs]; [reflexivity|].
  change (last (y :: z :: zs) x) with (last (z :: zs) x).
  apply last_default. discriminate.
Qed.

Lemma rstrip_chars_last (l r : list string) (a : string) :
  rstrip_chars l = a :: r -> isspace (last r a) = false.
Proof.
  revert a r. induction l as [|x l IH]; intros a r; simpl; [discriminate|].
  destruct (rstrip_chars l) as [|y ys] eqn:E.
  - destruct (isspace x) eqn:Ex; [discriminate|]. now intros [= <- <-].
  - intros [= <- <-]. rewrite last_cons. exact (IH y ys eq_refl).
Qed.

Lemma chunked_lstrip_chars (l : list string) : chunked l -> chunked (lstrip_chars l).
Proof.
  induction l as [|x l IH]; intros H; simpl; [exact H|].
  destruct (isspace x); [apply IH; now apply chunked_tail in H | exact H].
Qed.

Lemma chunked_rstrip_chars (l : list string) : chunked l -> chunked (rstrip_chars l).
Proof.
  induction l as [|x l IH]; intros H; simpl; [exact H|].
  pose proof (IH (chunked_tail _ _ H)) as Hr. destruct H as [Hok Hlead].
  inversion Hok as [|? ? Hx _]; subst.
  destruct (rstrip_chars l) as [|y ys] eqn:E.
  - destruct (isspace x); split; repeat constructor. exact Hx.
  - destruct Hr as [Hrok Hrlead]. split; [now constructor|].
    simpl. destruct (rstrip_chars_head l ys y E) as [l' ->].
    simpl in Hlead. inversion Hlead; subst. now constructor.
Qed.

Lemma chars_strip (s : string) :
  chars (strip s) = rstrip_chars (lstrip_chars (chars s)).
Proof.
  unfold strip.
  apply chars_concat, chunked_rstrip_chars, chunked_lstrip_chars, chunked_chars.
Qed.

Lemma trimmed_strip (s : string) : trimmed (strip s) = true.
Proof.
  unfold trimmed. rewrite chars_strip.
  destruct (rstrip_chars (lstrip_chars (chars s))) as [|a r] eqn:E; [reflexivity|].
  rewrite (rstrip_chars_last _ _ _ E).
  destruct (rstrip_chars_head _ _ _ E) as [l' Hl].
  now rewrite (lstrip_chars_head _ _ _ Hl).
Qed.

Section Gateway.
Context {RT : PyRuntime} {PZ : PyZotero}.

(** What [get_zotero_client] does when both credentials are set and no
    client is cached. *)
Lemma get_zotero_client_builds (s : state) :
  unconfigured s = false -> zot s = None ->
  let id := ZOTERO_LIBRARY_ID s in
  let ty := ZOTERO_LIBRARY_TYPE s in
  let key := ZOTERO_API_KEY s in
  get_zotero_client s =
  (Ok (match fst (zotero_Zotero id ty key (world s)) with
       | Ok c => Some c
       | Raise _ => None
       end),
   mkState id key ty
           (match fst (zotero_Zotero id ty key (world s)) with
            | Ok c => Some c
            | Raise _ => None
            end)
           (snd (zotero_Zotero id ty key (world s)))
           (calls s ++ [CallZotero id ty key])).
Proof.
  unfold unconfigured, get_zotero_client, bind, gets. intros -> Hz. rewrite Hz.
  unfold try_except, bind, gets, call_Zotero, external, modify, set_zot, ret.
  destruct (zotero_Zotero (ZOTERO_LIBRARY_ID s) (ZOTERO_LIBRARY_TYPE s)
                          (ZOTERO_API_KEY s) (world s)) as [[c|e] w];
    simpl; rewrite ?Hz; reflexivity.
Qed.

Lemma get_zotero_client_cases (s : state) :
  (unconfigured s = true) \/
  (unconfigured s = false /\ exists z, zot s = Some z) \/
  (unconfigured s = false /\ zot s = None).
Proof.
  destruct (unconfigured s); [now left | right].
  destruct (zot s) as [z|]; [left | right]; split; eauto.
Qed.

(** The state in which [get_zotero_client] hands out a client. *)
Lemma get_zotero_client_some (s s1 : state) (z : Zotero) :
  get_zotero_client s = (Ok (Some z), s1) ->
  zot s1 = Some z /\ unconfigured s1 = false /\ same_credentials s s1.
Proof.
  intros H.
  destruct (get_zotero_client_cases s) as [Hu|[[Hu [z' Hz]]|[Hu Hz]]].
  - rewrite (get_zotero_client_unconfigured s Hu) in H. discriminate.
  - rewrite (get_zotero_client_cached s z' Hu Hz) in H.
    injection H as <- <-. repeat split; assumption.
  - rewrite (get_zotero_client_builds s Hu Hz) in H.
    injection H as H1 <-. unfold unconfigured in *. simpl. rewrite H1.
    repeat split; assumption.
Qed.

(** X1.  A client that [get_zotero_client] returns is cached: asking again
    returns the same client, changes nothing and calls nothing. *)
Theorem get_zotero_client_caches (s s1 : state) (z : Zotero) :
  get_zotero_client s = (Ok (Some z), s1) ->
  zot s1 = Some z /\
  unconfigured s1 = false /\
  get_zotero_client s1 = (Ok (Some z), s1).
Proof.
  intros H. destruct (get_zotero_client_some s s1 z H) as (Hz & Hu & _).
  repeat split; try assumption. now apply get_zotero_client_cached.
Qed.

(** X2.  When both credentials are set and [get_zotero_client] still
    returns [None], the constructor was called once, with the stored
    credentials, and raised; nothing is cached and the credentials are
    untouched, so the next request for a client calls the constructor
    again. *)
Theorem failed_construction_is_not_cached (s s1 : state) :
  unconfigured s = false ->
  get_zotero_client s = (Ok None, s1) ->
  zot s1 = None /\
  same_credentials s s1 /\
  calls s1 = calls s ++ [CallZotero (ZOTERO_LIBRARY_ID s) (ZOTERO_LIBRARY_TYPE s)
                                    (ZOTERO_API_KEY s)] /\
  (exists e, fst (zotero_Zotero (ZOTERO_LIBRARY_ID s) (ZOTERO_LIBRARY_TYPE s)
                                (ZOTERO_API_KEY s) (world s)) = Raise e) /\
  calls (snd (get_zotero_client s1))
  = calls s1 ++ [CallZotero (ZOTERO_LIBRARY_ID s) (ZOTERO_LIBRARY_TYPE s)
                            (ZOTERO_API_KEY s)].
Proof.
  intros Hu H.
  destruct (zot s) as [z|] eqn:Hz.
  - rewrite (get_zotero_client_cached s z Hu Hz) in H. discriminate.
  - rewrite (get_zotero_client_builds s Hu Hz) in H.
    destruct (zotero_Zotero (ZOTERO_LIBRARY_ID s) (ZOTERO_LIBRARY_TYPE s)
                            (ZOTERO_API_KEY s) (world s)) as [[c|e] w] eqn:E;
      simpl in H; [discriminate|].
    injection H as <-. simpl. repeat split.
    + now exists e.
    + rewrite get_zotero_client_builds by first [reflexivity | exact Hu].
      reflexivity.
Qed.

(** X3.  After a call of [configure_zotero] that passes validation with
    credentials that are not blank, the next request for a client does not
    reuse a client cached before: it calls the constructor with the new,
    stripped credentials and returns what the constructor gives. *)
Theorem configure_forces_a_new_client
        (library_id api_key : string) (library_type : option string) (s : state) :
  library_id <> "" -> api_key <> "" ->
  In (with_default "user" library_type) ["user"; "group"] ->
  strip library_id <> "" -> strip api_key <> "" ->
  let ty := strip (with_default "user" library_type) in
  let s' := snd (configure_zotero library_id api_key library_type s) in
  let built := zotero_Zotero (strip library_id) ty (strip api_key) (world s') in
  fst (get_zotero_client s') = Ok (match fst built with
                                   | Ok c => Some c
                                   | Raise _ => None
                                   end) /\
  calls (snd (get_zotero_client s'))
  = calls s' ++ [CallZotero (strip library_id) ty (strip api_key)].
Proof.
  intros H1 H2 H3 H4 H5 ty s' built.
  pose proof (configure_valid _ _ _ s H1 H2 H3) as Hv.
  destruct (probe_connection_run
              (stored library_id api_key (with_default "user" library_type) s))
    as (log & Hrun).
  assert (Hs' : ZOTERO_LIBRARY_ID s' = strip library_id /\
                ZOTERO_API_KEY s' = strip api_key /\
                ZOTERO_LIBRARY_TYPE s' = ty /\ zot s' = None)
    by (unfold s'; rewrite Hv, Hrun; repeat split).
  destruct Hs' as (Hid & Hkey & Hty & Hz).
  assert (Hu : unconfigured s' = false).
  { unfold unconfigured. rewrite Hid, Hkey. apply orb_false_iff.
    split; now apply is_empty_false. }
  rewrite (get_zotero_client_builds s' Hu Hz). simpl.
  unfold built. rewrite Hid, Hkey, Hty. split; reflexivity.
Qed.

(** X4.  What a validated [configure_zotero] stores is trimmed: neither
    the library id nor the key starts or ends with white space, and the
    library type is the argument itself, one of [user] and [group]. *)
Theorem stored_credentials_are_trimmed
        (library_id api_key : string) (library_type : option string) (s : state) :
  library_id <> "" -> api_key <> "" ->
  In (with_default "user" library_type) ["user"; "group"] ->
  let s' := snd (configure_zotero library_id api_key library_type s) in
  trimmed (ZOTERO_LIBRARY_ID s') = true /\
  trimmed (ZOTERO_API_KEY s') = true /\
  ZOTERO_LIBRARY_TYPE s' = with_default "user" library_type.
Proof.
  intros H1 H2 H3 s'.
  pose proof (configure_valid _ _ _ s H1 H2 H3) as Hv.
  destruct (probe_connection_run
              (stored library_id api_key (with_default "user" library_type) s))
    as (log & Hrun).
  unfold s'. rewrite Hv, Hrun. simpl.
  split; [apply trimmed_strip|]. split; [apply trimmed_strip|].
  destruct H3 as [<-|[<-|[]]]; reflexivity.
Qed.

(** X5.  Configure, then check: after a validated [configure_zotero] with
    credentials that are not blank, [check_zotero_config] reports the
    stripped library id, the library type and the stripped key masked,
    whether the probe succeeded or not. *)
Theorem configure_then_check
        (library_id api_key : string) (library_type : option string) (s : state) :
  library_id <> "" -> api_key <> "" ->
  In (with_default "user" library_type) ["user"; "group"] ->
  strip library_id <> "" -> strip api_key <> "" ->
  let s' := snd (configure_zotero library_id api_key library_type s) in
  check_zotero_config s' =
  (Ok ("✅ Zotero已配置" +++ LF +++ "库ID: " +++ strip library_id +++ LF
       +++ "库类型: " +++ with_default "user" library_type +++ LF
       +++ "API密钥: " +++ masked_key (strip api_key)), s').
Proof.
  intros H1 H2 H3 H4 H5 s'.
  pose proof (configure_valid _ _ _ s H1 H2 H3) as Hv.
  destruct (probe_connection_run
              (stored library_id api_key (with_default "user" library_type) s))
    as (log & Hrun).
  assert (Hs' : ZOTERO_LIBRARY_ID s' = strip library_id /\
                ZOTERO_API_KEY s' = strip api_key /\
                ZOTERO_LIBRARY_TYPE s' = with_default "user" library_type).
  { unfold s'. rewrite Hv, Hrun. simpl. repeat split.
    destruct H3 as [<-|[<-|[]]]; reflexivity. }
  destruct Hs' as (Hid & Hkey & Hty).
  unfold check_zotero_config, bind, gets, ret. rewrite Hid, Hkey.
  apply is_empty_false in H4, H5. rewrite H4, H5. cbn [orb]. cbv beta iota.
  now rewrite Hty.
Qed.
End Gateway.

(* ================================================================== *)
(** * More on the retention filter, and the search *)

Section MoreFilter.
Context {RT : PyRuntime}.

Lemma partition_loop_ext (c c' : dict) (items r0 d0 : list value) :
  (forall item, should_retain c item = should_retain c' item) ->
  partition_loop c items r0 d0 = partition_loop c' items r0 d0.
Proof.
  intros H. revert r0 d0.
  induction items as [|item items IH]; intros r0 d0; simpl; [reflexivity|].
  rewrite H. destruct (should_retain c' item) as [[|]|e]; cbn [Res.bind]; auto.
Qed.

Lemma filter_filter_same {A} (p : A -> bool) (l : list A) :
  filter p (filter p l) = filter p l /\
  filter (fun x => negb (p x)) (filter p l) = [].
Proof.
  apply filter_all. intros x Hx. apply filter_In in Hx. tauto.
Qed.

Lemma wf_item_summary (item : value) :
  wf_item item = true -> summary_spec "无标题" item = Ok (summary_of item).
Proof.
  unfold summary_of, wf_item, summary_spec.
  destruct item as [| | | | |d]; try discriminate.
  destruct (dict_get "data" d) as [[| | | | |data]|]; try discriminate;
    reflexivity.
Qed.

Lemma matches_search_criteria (query : string) (item_type : option string)
      (item : value) :
  matches (search_criteria query item_type) item =
  match item_type with
  | Some ty => py_eq (item_type_of item) (VStr ty)
  | None => true
  end && str_in (lower query) (lower (item_title item)).
Proof. destruct item_type; reflexivity. Qed.

Lemma search_loop_wf (query : string) (item_type : option string)
      (items acc : list value) :
  forallb wf_item items = true ->
  search_loop query item_type items acc =
  Ok (acc ++ map summary_of
                 (filter (matches (search_criteria query item_type)) items)).
Proof.
  revert acc. induction items as [|item items IH]; intros acc H.
  - simpl. now rewrite app_nil_r.
  - simpl in H. apply andb_true_iff in H. destruct H as [Hi H].
    destruct (wf_item_data item Hi) as (Hd & Ht & Hty).
    cbn [search_loop filter]. rewrite Hd. cbn [Res.bind].
    rewrite Ht. cbn [Res.bind py_lower].
    rewrite matches_search_criteria.
    destruct (str_in (lower query) (lower (item_title item)));
      [|rewrite andb_false_r; now apply IH].
    rewrite andb_true_r.
    assert (Hs : data_summary item (VDict (item_data item)) = Ok (summary_of item))
      by (rewrite (data_summary_spec _ _ Hd); now apply wf_item_summary).
    destruct item_type as [ty|]; cbn [Res.bind].
    + rewrite Hty. cbn [Res.bind].
      destruct (py_eq (item_type_of item) (VStr ty)); [|now apply IH].
      rewrite Hs. cbn [Res.bind map]. rewrite IH by assumption.
      now rewrite <- app_assoc.
    + rewrite Hs. cbn [Res.bind map]. rewrite IH by assumption.
      now rewrite <- app_assoc.
Qed.

Lemma search_loop_case (q q' : string) (item_type : option string)
      (items acc : list value) :
  lower q = lower q' ->
  search_loop q item_type items acc = search_loop q' item_type items acc.
Proof.
  intros H. revert acc. induction items as [|item items IH]; intros acc;
    [reflexivity|].
  cbn [search_loop]. rewrite H.
  destruct (py_get item "data" (VDict [])) as [data|]; cbn [Res.bind];
    [|reflexivity].
  destruct (py_get data "title" (VStr "")) as [t|]; cbn [Res.bind]; [|reflexivity].
  destruct (py_lower t) as [title|]; cbn [Res.bind]; [|reflexivity].
  destruct (str_in (lower q') title); [|apply IH].
  destruct item_type as [ty|]; cbn [Res.bind].
  - destruct (py_get data "itemType" VNone) as [it|]; cbn [Res.bind];
      [|reflexivity].
    destruct (py_eq it (VStr ty)); [|apply IH].
    destruct (data_summary item data); cbn [Res.bind]; [apply IH | reflexivity].
  - destruct (data_summary item data); cbn [Res.bind]; [apply IH | reflexivity].
Qed.

Lemma should_retain_case (q q' : string) (criteria : dict) (item : value) :
  lower q = lower q' ->
  should_retain (("title_contains", VStr q) :: criteria) item =
  should_retain (("title_contains", VStr q') :: criteria) item.
Proof.
  intros H. unfold should_retain, dict_in, dict_item.
  cbn [dict_get]. change (String.eqb "item_type" "title_contains") with false.
  change (String.eqb "title_contains" "title_contains") with true.
  cbv iota. cbn [py_lower Res.bind]. now rewrite H.
Qed.

(** X6.  Matching ignores the case of what is looked for: two queries, or
    two [title_contains] values, with the same lower-case form give the
    same search result and the same partition, on any items. *)
Theorem matching_ignores_case
        (q q' : string) (item_type : option string) (criteria : dict)
        (items : list value) :
  lower q = lower q' ->
  search_loop q item_type items [] = search_loop q' item_type items [] /\
  partition (("title_contains", VStr q) :: criteria) items =
  partition (("title_contains", VStr q') :: criteria) items.
Proof.
  intros H. split; [now apply search_loop_case|].
  unfold partition. apply partition_loop_ext. intros item.
  now apply should_retain_case.
Qed.

(** X7.  Filtering again changes nothing: of the items a run retained, a
    second run with the same criteria retains all and deletes none; of the
    items it slated for deletion, a second run retains none. *)
Theorem partition_idempotent (criteria : dict) (items r d : list value) :
  partition criteria items = Ok (r, d) ->
  partition criteria r = Ok (r, []) /\
  partition criteria d = Ok ([], d).
Proof.
  intros H. pose proof (partition_loop_answers _ _ _ _ _ _ H) as Ha.
  apply partition_filter in H. destruct H as [-> ->].
  rewrite Forall_forall in Ha. unfold partition. split.
  - rewrite partition_loop_ok
      by (apply Forall_forall; intros i Hi; apply filter_In in Hi; apply Ha, Hi).
    destruct (filter_filter_same (keeps criteria) items) as [-> ->]. reflexivity.
  - rewrite partition_loop_ok
      by (apply Forall_forall; intros i Hi; apply filter_In in Hi; apply Ha, Hi).
    destruct (filter_all (fun i => negb (keeps criteria i))
                         (filter (fun i => negb (keeps criteria i)) items))
      as [H1 H2].
    { intros x Hx. apply filter_In in Hx. tauto. }
    rewrite H1. f_equal. f_equal. simpl.
    clear H1 H2. induction items as [|x l IH]; simpl; [reflexivity|].
    destruct (keeps criteria x) eqn:E; simpl; [apply IH; intros; apply Ha; now right|].
    rewrite E. simpl. apply IH. intros; apply Ha; now right.
Qed.

(** X8.  An item that lacks the field a criterion asks for is slated for
    deletion: an item without [itemType] under an [item_type] criterion
    that is a string, and an item without title under a [title_contains]
    criterion that is a non-empty string. *)
Theorem items_missing_a_field_are_deleted (criteria : dict) (item : value) :
  wf_item item = true -> wf_criteria criteria = true ->
  (forall t, dict_get "item_type" criteria = Some (VStr t) ->
             dict_get "itemType" (item_data item) = None ->
             should_retain criteria item = Ok false) /\
  (forall s, dict_get "title_contains" criteria = Some (VStr s) ->
             dict_get "title" (item_data item) = None ->
             s <> "" ->
             should_retain criteria item = Ok false).
Proof.
  intros Hi Hc. rewrite (should_retain_wf _ _ Hi Hc). unfold matches. split.
  - intros t Ht Hn. rewrite Ht. unfold item_type_of. rewrite Hn. reflexivity.
  - intros s Hs Hn Hne. rewrite Hs. unfold item_title. rewrite Hn.
    assert (Hl : lower "" = "") by now apply lower_nil.
    rewrite Hl.
    destruct (lower s) eqn:E;
      [exfalso; apply Hne; now apply (proj1 (lower_nil s))|].
    simpl. now rewrite andb_false_r.
Qed.

End MoreFilter.

Section Search.
Context {RT : PyRuntime} {PZ : PyZotero}.

(** X9.  On items of the shape the client delivers, [search_items] finds
    what the retention filter retains under the criteria [title_contains]
    = the query and, when a type is given, [item_type] = that type: the
    search result is the list of the summaries of the retained items, in
    order, and the answer of the tool says how many they are. *)
Theorem search_agrees_with_filter
        (query : string) (item_type : option string) (items : list value) :
  forallb wf_item items = true ->
  exists r d,
    partition (search_criteria query item_type) items = Ok (r, d) /\
    search_loop query item_type items [] = Ok (map summary_of r) /\
    forall (s s1 : state) (z : Zotero) (w : World),
      get_zotero_client s = (Ok (Some z), s1) ->
      fetch_everything z (world s1) = (Ok items, w) ->
      fst (search_items query item_type s) =
      Ok ("搜索结果 (" +++ str_of_len r +++ " 个条目):" +++ LF
          +++ json_dumps (Some 2) (VList (map summary_of r))).
Proof.
  intros Hi.
  assert (Hc : wf_criteria (search_criteria query item_type) = true)
    by (destruct item_type; reflexivity).
  pose proof (answers_wf _ _ Hi Hc) as Ha.
  exists (filter (keeps (search_criteria query item_type)) items),
         (filter (fun i => negb (keeps (search_criteria query item_type) i)) items).
  assert (Hf : filter (keeps (search_criteria query item_type)) items
               = filter (matches (search_criteria query item_type)) items).
  { apply filter_ext_in. intros i Hin. apply keeps_answers.
    rewrite Forall_forall in Ha. now apply Ha. }
  split; [unfold partition; now rewrite partition_loop_ok|].
  assert (Hl : search_loop query item_type items []
               = Ok (map summary_of
                         (filter (keeps (search_criteria query item_type)) items)))
    by (rewrite search_loop_wf by assumption; now rewrite Hf).
  split; [exact Hl|].
  intros s s1 z w Hget Hfetch. unfold search_items. unfold bind at 1.
  rewrite Hget. unfold try_except. unfold bind at 1.
  unfold call_top at 1, external at 1. unfold fetch_everything in Hfetch.
  destruct (zot_top z None (world s1)) as [[page|e] w1]; [|discriminate].
  unfold bind at 1. unfold call_everything at 1, external at 1. cbn [world].
  rewrite Hfetch. unfold bind at 1, lift at 1. rewrite Hl.
  unfold str_of_len. rewrite length_map. reflexivity.
Qed.
End Search.

(* ================================================================== *)
(** * The listings *)

Lemma summarizable_summary (item : value) :
  summarizable item = true -> summary_spec "无标题" item = Ok (summary_of item).
Proof.
  unfold summarizable, summary_of.
  destruct (summary_spec "无标题" item); [reflexivity | discriminate].
Qed.

Lemma for_append_ok (f : value -> res value) (g : value -> value)
      (items acc : list value) :
  (forall item, In item items -> f item = Ok (g item)) ->
  for_append f items acc = Ok (acc ++ map g items).
Proof.
  revert acc. induction items as [|item items IH]; intros acc H; simpl.
  - now rewrite app_nil_r.
  - rewrite (H item (or_introl eq_refl)). cbn [Res.bind].
    rewrite IH by (intros i Hi; apply H; now right).
    now rewrite <- app_assoc.
Qed.

Lemma for_append_raises (f : value -> res value) (ok : value -> bool)
      (items acc : list value) :
  (forall item, ok item = true -> exists v, f item = Ok v) ->
  (forall item, ok item = false -> exists e, f item = Raise e) ->
  forallb ok items = false ->
  exists e, for_append f items acc = Raise e.
Proof.
  intros Hok Hbad. revert acc.
  induction items as [|item items IH]; intros acc H; [discriminate|].
  simpl in *. destruct (ok item) eqn:E.
  - destruct (Hok item E) as [v ->]. cbn [Res.bind]. now apply IH.
  - destruct (Hbad item E) as [e ->]. now exists e.
Qed.

Lemma summaries_of_summarizable (f : value -> res value) (items acc : list value) :
  (forall item, f item = summary_spec "无标题" item) ->
  forallb summarizable items = true ->
  for_append f items acc = Ok (acc ++ map summary_of items).
Proof.
  intros Hf H. apply for_append_ok. intros item Hin.
  rewrite forallb_forall in H. rewrite Hf. now apply summarizable_summary, H.
Qed.

Section Listings.
Context {RT : PyRuntime} {PZ : PyZotero}.

(** X10.  With a client at hand, [list_items] asks the client once for
    the top items with the limit it was given, 50 when none was, and
    [get_recent_items] once with the limit 10.  When every item fetched
    has a summary, the answer holds the summaries of all of them, in the
    order fetched; when one item has none (it is not a dict, or its [data]
    is not), [list_items] answers with the failure text and no summary at
    all. *)
Theorem listings_summarize_every_item
        (limit : option Z) (s s1 : state) (z : Zotero) :
  get_zotero_client s = (Ok (Some z), s1) ->
  (forall items w,
      zot_top z (Some (with_default 50 limit)) (world s1) = (Ok items, w) ->
      forallb summarizable items = true ->
      exists s',
        list_items limit s =
        (Ok ("找到 " +++ str_of_len items +++ " 个条目:" +++ LF
             +++ json_dumps (Some 2) (VList (map summary_of items))), s') /\
        calls s' = calls s1 ++ [CallTop (Some (with_default 50 limit))] /\
        world s' = w) /\
  (forall items w,
      zot_top z (Some (with_default 50 limit)) (world s1) = (Ok items, w) ->
      forallb summarizable items = false ->
      exists e, fst (list_items limit s) = Ok ("获取条目列表失败: " +++ str_e e)) /\
  (forall items w,
      zot_top z (Some 10) (world s1) = (Ok items, w) ->
      forallb summarizable items = true ->
      exists s',
        get_recent_items s =
        (Ok (json_dumps (Some 2) (VList (map summary_of items))), s') /\
        calls s' = calls s1 ++ [CallTop (Some 10)] /\
        world s' = w).
Proof.
  intros Hget. split; [|split].
  - intros items w Htop Hs. unfold list_items. unfold bind at 1. rewrite Hget.
    unfold try_except, bind, call_top, external, lift, ret. rewrite Htop.
    rewrite (summaries_of_summarizable _ items [] list_items_summary_spec Hs).
    cbn [app]. unfold str_of_len. rewrite length_map.
    eexists. split; [reflexivity|]. split; reflexivity.
  - intros items w Htop Hs. unfold list_items. unfold bind at 1. rewrite Hget.
    unfold try_except, bind, call_top, external, lift, ret. rewrite Htop.
    destruct (for_append_raises list_items_summary summarizable items []) as [e He].
    + intros item Hi. exists (summary_of item).
      rewrite list_items_summary_spec. now apply summarizable_summary.
    + intros item Hi. rewrite list_items_summary_spec. unfold summarizable in Hi.
      destruct (summary_spec "无标题" item) as [v|e]; [discriminate | now exists e].
    + exact Hs.
    + rewrite He. now exists e.
  - intros items w Htop Hs. unfold get_recent_items. unfold bind at 1. rewrite Hget.
    unfold try_except, bind, call_top, external, lift, ret. rewrite Htop.
    rewrite (summaries_of_summarizable recent_items_summary items []
                                       bound_summary_spec Hs).
    eexists. split; [reflexivity|]. split; reflexivity.
Qed.
End Listings.

(* ================================================================== *)
(** * The answers of the retention workflow *)

(** An item the filter slates for deletion went through a criterion, so its
    [data] is a dict. *)
Lemma deleted_has_data_dict {RT : PyRuntime} (criteria : dict) (item : value) :
  should_retain criteria item = Ok false -> has_data_dict item = true.
Proof.
  unfold should_retain, has_data_dict, dict_in, dict_item.
  destruct item as [| | | | |d]; try discriminate.
  unfold py_get at 1.
  destruct (dict_get "data" d) as [[| | | | |data]|]; try reflexivity;
    cbn [Res.bind];
    (destruct (dict_get "item_type" criteria); cbn [Res.bind py_get];
     [discriminate|]);
    (destruct (dict_get "title_contains" criteria) as [tc|]; cbn [Res.bind];
     [destruct (py_lower tc); cbn [Res.bind py_get]; discriminate
     |discriminate]).
Qed.

Lemma has_data_dict_gets (item : value) :
  has_data_dict item = true ->
  py_get item "data" (VDict []) = Ok (VDict (item_data item)) /\
  py_get item "key" VNone = Ok (item_key item).
Proof.
  unfold has_data_dict, item_data, item_key, py_get.
  destruct item as [| | | | |d]; try discriminate.
  destruct (dict_get "data" d) as [[| | | | |data]|]; try discriminate;
    destruct (dict_get "key" d); split; reflexivity.
Qed.

Section RetainAnswers.
Context {RT : PyRuntime} {PZ : PyZotero}.

Lemma preview_loop_run (items : list value) (result : string) :
  forallb has_data_dict items = true ->
  preview_loop items result = Ok (result +++ concat_str (map preview_line items)).
Proof.
  revert result. induction items as [|item items IH]; intros result H.
  - simpl. now rewrite append_empty_r.
  - simpl in H. apply andb_true_iff in H. destruct H as [Hi H].
    destruct (has_data_dict_gets item Hi) as [Hd Hk].
    cbn [preview_loop map concat_str]. rewrite Hd. cbn [Res.bind].
    unfold py_get at 1. rewrite Hk.
    destruct (dict_get "title" (item_data item)) as [t|] eqn:Et;
      cbn [Res.bind]; rewrite IH by assumption; unfold preview_line;
      rewrite Et; cbn [with_default]; now rewrite !append_assoc.
Qed.

Lemma deleted_count_cons (k : value) (r : res unit) (l : list (value * res unit)) :
  deleted_count ((k, r) :: l) =
  (match r with Ok _ => 1 | Raise _ => 0 end) + deleted_count l.
Proof.
  unfold deleted_count. cbn [filter snd].
  destruct r; cbn [List.length]; lia.
Qed.

Lemma retain_delete_loop_full (z : Zotero) (items : list value)
      (result : string) (n : Z) (s : state) :
  Forall (fun i => py_get i "key" VNone = Ok (item_key i)) items ->
  retain_delete_loop z items result n s =
  (Ok (result +++ concat_str
                (retain_failure_lines
                   (fst (attempts_on z (map item_key items) (world s)))),
       n + deleted_count (fst (attempts_on z (map item_key items) (world s)))),
   mkState (ZOTERO_LIBRARY_ID s) (ZOTERO_API_KEY s) (ZOTERO_LIBRARY_TYPE s) (zot s)
           (snd (attempts_on z (map item_key items) (world s)))
           (calls s ++ map (fun i => CallDeleteItem (item_key i)) items)).
Proof.
  intros H. revert result n s.
  induction H as [|item items Hk _ IH]; intros result n s.
  - destruct s. simpl. unfold ret, deleted_count. simpl.
    now rewrite append_empty_r, Z.add_0_r, app_nil_r.
  - cbn [retain_delete_loop map attempts_on].
    unfold bind at 1. unfold try_except, bind, lift, call_delete_item, external, ret.
    rewrite Hk.
    destruct (zot_delete_item z (item_key item) (world s)) as [[[]|e] w1];
      cbn [fst snd]; rewrite IH;
      cbn [world calls ZOTERO_LIBRARY_ID ZOTERO_API_KEY ZOTERO_LIBRARY_TYPE zot];
      destruct (attempts_on z (map item_key items) w1) as [l w2]; cbn [fst snd];
      rewrite deleted_count_cons; unfold retain_failure_lines;
      cbn [flat_map fst snd app concat_str];
      rewrite <- !app_assoc; cbn [app];
      rewrite ?append_assoc, ?Z.add_assoc, ?Z.add_0_r; reflexivity.
Qed.

Lemma attempts_on_count (a : list (value * res unit)) :
  deleted_count a + Z.of_nat (List.length (retain_failure_lines a))
  = Z.of_nat (List.length a).
Proof.
  induction a as [|[k r] a IH]; [reflexivity|].
  rewrite deleted_count_cons. unfold retain_failure_lines in *.
  cbn [flat_map snd]. destruct r; cbn [app List.length]; lia.
Qed.

Lemma attempts_on_length (z : Zotero) (keys : list value) (w : World) :
  List.length (fst (attempts_on z keys w)) = List.length keys.
Proof.
  revert w. induction keys as [|k keys IH]; intros w; simpl; [reflexivity|].
  destruct (zot_delete_item z k w) as [r w1].
  specialize (IH w1). destruct (attempts_on z keys w1) as [l w2]. simpl in *.
  now rewrite IH.
Qed.

(** The run of [retain_items_by_criteria] up to the end of the filter. *)
Lemma retain_after_fetch (criteria : dict) (dry_run : option bool)
      (s s1 : state) (z : Zotero) :
  get_zotero_client s = (Ok (Some z), s1) ->
  retain_items_by_criteria criteria dry_run s =
  match zot_top z None (world s1) with
  | (Raise e, w1) =>
      (Ok ("执行筛选操作失败: " +++ str_e e),
       mkState (ZOTERO_LIBRARY_ID s1) (ZOTERO_API_KEY s1) (ZOTERO_LIBRARY_TYPE s1)
               (zot s1) w1 (calls s1 ++ [CallTop None]))
  | (Ok page, w1) =>
      let t := mkState (ZOTERO_LIBRARY_ID s1) (ZOTERO_API_KEY s1)
                       (ZOTERO_LIBRARY_TYPE s1) (zot s1)
                       (snd (zot_everything z page w1))
                       ((calls s1 ++ [CallTop None]) ++ [CallEverything page]) in
      match fst (zot_everything z page w1) with
      | Raise e => (Ok ("执行筛选操作失败: " +++ str_e e), t)
      | Ok all_items =>
          match partition criteria all_items with
          | Raise e => (Ok ("执行筛选操作失败: " +++ str_e e), t)
          | Ok (r, d) =>
              if with_default true dry_run then
                match preview_loop (firstn 10 d)
                        (retain_header r d +++ LF +++ "[预览模式] 待删除的条目:" +++ LF)
                with
                | Raise e => (Ok ("执行筛选操作失败: " +++ str_e e), t)
                | Ok result =>
                    (Ok (if Z.of_nat (List.length d) >? 10
                         then result +++ "... 还有 "
                              +++ str_of_int (Z.of_nat (List.length d) - 10)
                              +++ " 个条目" +++ LF
                         else result), t)
                end
              else
                match retain_delete_loop z d (retain_header r d) 0 t with
                | (Ok acc, t') =>
                    (Ok (fst acc +++ LF +++ "实际删除了 " +++ str_of_int (snd acc)
                         +++ " 个条目"), t')
                | (Raise e, t') => (Ok ("执行筛选操作失败: " +++ str_e e), t')
                end
          end
      end
  end.
Proof.
  intros Hget. unfold retain_items_by_criteria. unfold bind at 1. rewrite Hget.
  unfold try_except. unfold bind at 1. unfold call_top at 1, external at 1.
  destruct (zot_top z None (world s1)) as [[page|e] w1]; [|reflexivity].
  unfold bind at 1. unfold call_everything at 1, external at 1. cbn [world].
  destruct (zot_everything z page w1) as [[all_items|e] w2]; [|reflexivity].
  unfold bind at 1, lift at 1. cbn [fst snd].
  destruct (partition criteria all_items) as [[r d]|e]; [|reflexivity].
  cbv zeta. cbn [fst snd].
  destruct (with_default true dry_run).
  - unfold bind at 1, lift at 1. unfold retain_header.
    destruct (preview_loop _ _) as [result|e]; [|reflexivity].
    destruct (_ >? _); reflexivity.
  - unfold bind at 1. unfold retain_header.
    destruct (retain_delete_loop _ _ _ _ _) as [[acc|e] t']; reflexivity.
Qed.
End RetainAnswers.

Lemma deleted_items_have_data {RT : PyRuntime} (criteria : dict) (items r d : list value) :
  partition criteria items = Ok (r, d) -> forallb has_data_dict d = true.
Proof.
  intros H. pose proof (partition_loop_answers _ _ _ _ _ _ H) as Ha.
  apply partition_filter in H. destruct H as [_ ->].
  rewrite Forall_forall in Ha. apply forallb_forall. intros i Hi.
  apply filter_In in Hi. destruct Hi as [Hin Hk].
  destruct (Ha i Hin) as [b Hb]. apply (deleted_has_data_dict criteria).
  unfold keeps in Hk. rewrite Hb in Hk. destruct b; [discriminate | exact Hb].
Qed.

Lemma forallb_firstn {A} (p : A -> bool) (n : nat) (l : list A) :
  forallb p l = true -> forallb p (firstn n l) = true.
Proof.
  revert l. induction n as [|n IH]; intros [|x l]; simpl; try reflexivity.
  rewrite !andb_true_iff. intros [-> H]. auto.
Qed.

Section RetainTheorems.
Context {RT : PyRuntime} {PZ : PyZotero}.

Lemma fetch_everything_ok (z : Zotero) (w0 w : World) (all_items : list value) :
  fetch_everything z w0 = (Ok all_items, w) ->
  exists page w1, zot_top z None w0 = (Ok page, w1) /\
                  zot_everything z page w1 = (Ok all_items, w).
Proof.
  unfold fetch_everything.
  destruct (zot_top z None w0) as [[page|e] w1]; [|discriminate].
  intros H. now exists page, w1.
Qed.

(** X11.  A preview never fails once the items are fetched and filtered:
    the answer is the three counting lines, the preview heading, one line
    [- title (key)] for each of the first ten items slated for deletion,
    in order, and, when there are more than ten, a last line counting the
    others.  The library is left as the fetch left it. *)
Theorem preview_lists_the_first_ten
        (criteria : dict) (dry_run : option bool) (s s1 : state) (z : Zotero)
        (all_items r d : list value) (w : World) :
  dry_run <> Some false ->
  get_zotero_client s = (Ok (Some z), s1) ->
  fetch_everything z (world s1) = (Ok all_items, w) ->
  partition criteria all_items = Ok (r, d) ->
  exists s',
    retain_items_by_criteria criteria dry_run s =
    (Ok ((retain_header r d +++ LF +++ "[预览模式] 待删除的条目:" +++ LF)
         +++ concat_str (map preview_line (firstn 10 d))
         +++ (if Z.of_nat (List.length d) >? 10
              then "... 还有 " +++ str_of_int (Z.of_nat (List.length d) - 10)
                   +++ " 个条目" +++ LF
              else "")), s') /\
    world s' = w.
Proof.
  intros Hdry Hget Hfetch Hpart.
  assert (Hd : with_default true dry_run = true)
    by (destruct dry_run as [[|]|]; [reflexivity | congruence | reflexivity]).
  destruct (fetch_everything_ok _ _ _ _ Hfetch) as (page & w1 & Htop & Hall).
  rewrite (retain_after_fetch criteria dry_run s s1 z Hget), Htop, Hall.
  cbn [fst snd]. cbv zeta. rewrite Hpart, Hd.
  rewrite preview_loop_run
    by (apply forallb_firstn; now apply (deleted_items_have_data criteria all_items r)).
  match goal with |- exists s', (_, ?t) = _ /\ _ => exists t end.
  split; [|reflexivity]. do 2 f_equal.
  destruct (_ >? _); [now rewrite append_assoc | now rewrite append_empty_r].
Qed.

(** X12.  A run with [dry_run=False], once the items are fetched and
    filtered, never fails: it attempts the deletion of every item of the
    delete list, by key and in order, and answers with the three counting
    lines, one line per attempt that raised, and the number of attempts
    that succeeded.  Attempts that succeeded and lines of failure together
    are as many as the items slated for deletion. *)
Theorem real_run_reports_each_failure
        (criteria : dict) (s s1 : state) (z : Zotero)
        (all_items r d : list value) (w : World) :
  get_zotero_client s = (Ok (Some z), s1) ->
  fetch_everything z (world s1) = (Ok all_items, w) ->
  partition criteria all_items = Ok (r, d) ->
  let a := attempts_on z (map item_key d) w in
  exists s',
    retain_items_by_criteria criteria (Some false) s =
    (Ok ((retain_header r d +++ concat_str (retain_failure_lines (fst a)))
         +++ LF +++ "实际删除了 " +++ str_of_int (deleted_count (fst a))
         +++ " 个条目"), s') /\
    world s' = snd a /\
    deleted_count (fst a) + Z.of_nat (List.length (retain_failure_lines (fst a)))
    = Z.of_nat (List.length d).
Proof.
  intros Hget Hfetch Hpart a.
  destruct (fetch_everything_ok _ _ _ _ Hfetch) as (page & w1 & Htop & Hall).
  assert (Hkeys : Forall (fun i => py_get i "key" VNone = Ok (item_key i)) d).
  { pose proof (deleted_items_have_data _ _ _ _ Hpart) as Hd.
    rewrite forallb_forall in Hd. apply Forall_forall. intros i Hi.
    now apply has_data_dict_gets, Hd. }
  rewrite (retain_after_fetch criteria (Some false) s s1 z Hget), Htop, Hall.
  cbn [fst snd with_default]. cbv zeta. rewrite Hpart. cbv iota.
  rewrite (retain_delete_loop_full z d _ 0 _ Hkeys). cbn [fst snd world].
  fold a. rewrite Z.add_0_l.
  eexists. split; [reflexivity|]. split; [reflexivity|].
  rewrite attempts_on_count. unfold a.
  now rewrite attempts_on_length, length_map.
Qed.

(** X13.  Nothing is deleted unless the whole collection was fetched and
    filtered: when one of the two fetching calls raises, or the filter
    does (a criterion or an item of a shape it cannot handle), the tool
    answers with the failure text carrying the exception's message and has
    made no [delete_item] call, also with [dry_run=False]. *)
Theorem nothing_is_deleted_unless_filtered
        (criteria : dict) (dry_run : option bool) (s s1 : state) (z : Zotero)
        (e : exn) :
  get_zotero_client s = (Ok (Some z), s1) ->
  (exists w, fetch_everything z (world s1) = (Raise e, w)) \/
  (exists all_items w, fetch_everything z (world s1) = (Ok all_items, w) /\
                       partition criteria all_items = Raise e) ->
  exists s',
    retain_items_by_criteria criteria dry_run s =
    (Ok ("执行筛选操作失败: " +++ str_e e), s') /\
    delete_calls (calls s') = delete_calls (calls s).
Proof.
  intros Hget H.
  pose proof (frame_deletes_get_zotero_client s) as Hs1.
  rewrite Hget in Hs1. unfold same_deletes in Hs1. simpl in Hs1.
  rewrite (retain_after_fetch criteria dry_run s s1 z Hget).
  unfold fetch_everything in H.
  destruct (zot_top z None (world s1)) as [[page|e1] w1].
  - destruct (zot_everything z page w1) as [[all_items|e2] w2]; cbn [fst snd];
      cbv zeta.
    + destruct H as [[w H]|(items & w & H & Hp)]; [discriminate|].
      injection H as <- <-. rewrite Hp.
      eexists. split; [reflexivity|]. cbn [calls].
      rewrite !delete_calls_app. simpl. now rewrite !app_nil_r.
    + destruct H as [[w H]|(items & w & H & Hp)]; [|discriminate].
      injection H as <- <-.
      eexists. split; [reflexivity|]. cbn [calls].
      rewrite !delete_calls_app. simpl. now rewrite !app_nil_r.
  - destruct H as [[w H]|(items & w & H & Hp)]; [|discriminate].
    injection H as <- <-.
    eexists. split; [reflexivity|]. cbn [calls].
    rewrite !delete_calls_app. simpl. now rewrite !app_nil_r.
Qed.
End RetainTheorems.

(* ================================================================== *)
(** * The histogram of item types *)

Lemma int_of_bool_inj (x y : bool) : int_of_bool x = int_of_bool y -> x = y.
Proof. destruct x, y; simpl; intros H; congruence. Qed.

Lemma py_eq_sym_hashable (a b : value) :
  hashable a = true -> hashable b = true -> py_eq a b = py_eq b a.
Proof.
  destruct a, b; try discriminate; intros _ _; simpl; try reflexivity.
  - now destruct b, b0.
  - apply Z.eqb_sym.
  - apply Z.eqb_sym.
  - apply Z.eqb_sym.
  - apply String.eqb_sym.
Qed.

Lemma py_eq_trans_hashable (a b c : value) :
  hashable a = true -> hashable b = true -> hashable c = true ->
  py_eq a b = true -> py_eq b c = true -> py_eq a c = true.
Proof.
  destruct a, b; try discriminate; destruct c; try discriminate;
    intros _ _ _; simpl; try discriminate; try reflexivity;
    rewrite ?Z.eqb_eq, ?String.eqb_eq, ?Bool.eqb_true_iff; intros; subst;
    try reflexivity; try (now apply int_of_bool_inj); congruence.
Qed.

Lemma py_eq_left (k t x : value) :
  hashable k = true -> hashable t = true -> hashable x = true ->
  py_eq k t = true -> py_eq k x = py_eq t x.
Proof.
  intros Hk Ht Hx H.
  destruct (py_eq t x) eqn:E.
  - now apply (py_eq_trans_hashable k t x).
  - destruct (py_eq k x) eqn:E'; [|reflexivity].
    rewrite <- E. symmetry.
    apply (py_eq_trans_hashable t k x); try assumption.
    now rewrite py_eq_sym_hashable.
Qed.

Lemma counts_get_eq (k t : value) (type_counts : list (value * Z)) (d : Z) :
  hashable k = true -> hashable t = true -> hashable_keys type_counts ->
  py_eq k t = true ->
  counts_get k type_counts d = counts_get t type_counts d.
Proof.
  intros Hk Ht H Heq. induction H as [|[x n] rest Hx _ IH]; simpl; [reflexivity|].
  simpl in Hx. rewrite (py_eq_left k t x) by assumption.
  destruct (py_eq t x); [reflexivity | exact IH].
Qed.

Lemma counts_get_set (k t : value) (n : Z) (type_counts : list (value * Z)) (d : Z) :
  hashable k = true -> hashable t = true -> hashable_keys type_counts ->
  counts_get k (counts_set t n type_counts) d =
  if py_eq k t then n else counts_get k type_counts d.
Proof.
  intros Hk Ht H. induction H as [|[x m] rest Hx _ IH]; simpl; [reflexivity|].
  simpl in Hx. destruct (py_eq t x) eqn:Etx; simpl.
  - destruct (py_eq k t) eqn:Ekt.
    + rewrite (py_eq_left k t x) by assumption. now rewrite Etx.
    + assert (py_eq k x = false) as ->; [|reflexivity].
      destruct (py_eq k x) eqn:Ekx; [|reflexivity].
      rewrite <- Ekt. symmetry.
      apply (py_eq_trans_hashable k x t); try assumption.
      now rewrite py_eq_sym_hashable.
  - rewrite IH. destruct (py_eq k x) eqn:Ekx; [|reflexivity].
    assert (py_eq k t = false) as ->; [|reflexivity].
    destruct (py_eq k t) eqn:Ekt; [|reflexivity].
    rewrite <- Etx. symmetry.
    apply (py_eq_trans_hashable t k x); try assumption.
    now rewrite py_eq_sym_hashable.
Qed.

Lemma hashable_keys_set (t : value) (n : Z) (type_counts : list (value * Z)) :
  hashable t = true -> hashable_keys type_counts ->
  hashable_keys (counts_set t n type_counts).
Proof.
  intros Ht H. induction H as [|[x m] rest Hx Hrest IH]; simpl.
  - repeat constructor. exact Ht.
  - destruct (py_eq t x); constructor; assumption.
Qed.

Lemma counts_total_set (t : value) (n : Z) (type_counts : list (value * Z)) :
  counts_total (counts_set t n type_counts)
  = counts_total type_counts + n - counts_get t type_counts 0.
Proof.
  induction type_counts as [|[x m] rest IH]; simpl; [lia|].
  destruct (py_eq t x); simpl; [lia | rewrite IH; lia].
Qed.

Lemma count_type_cons (k item : value) (items : list value) :
  count_type k (item :: items) =
  (if py_eq k (stats_type item) then 1 else 0) + count_type k items.
Proof.
  unfold count_type. cbn [filter].
  destruct (py_eq k (stats_type item)); cbn [List.length]; lia.
Qed.

Lemma stats_loop_run (items : list value) (type_counts : list (value * Z)) :
  forallb countable items = true -> hashable_keys type_counts ->
  exists type_counts',
    stats_loop items type_counts = Ok type_counts' /\
    hashable_keys type_counts' /\
    (forall k, hashable k = true ->
               counts_get k type_counts' 0
               = counts_get k type_counts 0 + count_type k items) /\
    counts_total type_counts'
    = counts_total type_counts + Z.of_nat (List.length items).
Proof.
  revert type_counts. induction items as [|item items IH]; intros tc H Hh.
  - exists tc. repeat split; try assumption.
    + intros k _. unfold count_type. simpl. lia.
    + simpl. lia.
  - simpl in H. apply andb_true_iff in H. destruct H as [Hi H].
    unfold countable in Hi. apply andb_true_iff in Hi. destruct Hi as [Hd Ht].
    destruct (has_data_dict_gets item Hd) as [Hdata _].
    cbn [stats_loop]. rewrite Hdata. cbn [Res.bind].
    assert (Hty : py_get (VDict (item_data item)) "itemType" (VStr "unknown")
                  = Ok (stats_type item)).
    { unfold stats_type, py_get.
      destruct (dict_get "itemType" (item_data item)); reflexivity. }
    rewrite Hty. cbn [Res.bind]. rewrite Ht.
    destruct (IH (counts_set (stats_type item)
                             (counts_get (stats_type item) tc 0 + 1) tc) H
                 (hashable_keys_set _ _ _ Ht Hh))
      as (tc' & Hrun & Hh' & Hget & Htot).
    exists tc'. split; [exact Hrun|]. split; [exact Hh'|]. split.
    + intros k Hk. rewrite (Hget k Hk), count_type_cons.
      rewrite counts_get_set by assumption.
      destruct (py_eq k (stats_type item)) eqn:E; [|lia].
      rewrite (counts_get_eq k (stats_type item) tc 0) by assumption. lia.
    + rewrite Htot, counts_total_set. simpl List.length. lia.
Qed.

Section Stats.
Context {RT : PyRuntime} {PZ : PyZotero}.

(** X14.  The histogram of [get_library_stats] counts every item once:
    on items whose [data] is a dict (or absent) and whose type can be a
    dictionary key, the count kept for a type is the number of items of a
    type equal to it, an item without [itemType] counting as [unknown],
    and the counts add up to the number of items, which is the
    [total_items] of the answer. *)
Theorem stats_count_every_item (items : list value) :
  forallb countable items = true ->
  exists type_counts,
    stats_loop items [] = Ok type_counts /\
    (forall k, hashable k = true ->
               counts_get k type_counts 0 = count_type k items) /\
    counts_total type_counts = Z.of_nat (List.length items) /\
    forall (s s1 : state) (z : Zotero) (w : World),
      get_zotero_client s = (Ok (Some z), s1) ->
      zot_top z None (world s1) = (Ok items, w) ->
      fst (get_library_stats s) =
      Ok (json_dumps (Some 2)
            (VDict [("total_items", VInt (Z.of_nat (List.length items)));
                    ("item_types", counts_value type_counts)])).
Proof.
  intros H.
  destruct (stats_loop_run items [] H (Forall_nil _))
    as (tc & Hrun & _ & Hget & Htot).
  exists tc. split; [exact Hrun|]. split; [|split].
  - intros k Hk. now rewrite (Hget k Hk).
  - now rewrite Htot.
  - intros s s1 z w Hc Htop. unfold get_library_stats. unfold bind at 1.
    rewrite Hc. unfold try_except, bind, call_top, external, lift, ret.
    rewrite Htop, Hrun. reflexivity.
Qed.
End Stats.

(* ================================================================== *)
(** * What the operations leave alone *)

Ltac frame_steps Hr Ht :=
  repeat first
    [ apply frame_ret; exact Hr
    | apply frame_gets; exact Hr
    | apply frame_lift; exact Hr
    | apply frame_bind; [exact Ht | | intros ?]
    | apply frame_try; [exact Ht | | intros ?] ].

Section Gateway2.
Context {RT : PyRuntime} {PZ : PyZotero}.

Lemma keeps_gateway_refl (s : state) : keeps_gateway s s.
Proof. split; [repeat split | auto]. Qed.

Lemma keeps_gateway_trans (a b c : state) :
  keeps_gateway a b -> keeps_gateway b c -> keeps_gateway a c.
Proof.
  unfold keeps_gateway, same_credentials.
  intros [(?&?&?) Hz] [(?&?&?) Hz']. split; [repeat split; congruence | auto].
Qed.

Lemma keeps_gateway_external {A} (c : call) (f : World -> res A * World) :
  frame keeps_gateway (external c f).
Proof.
  apply frame_external. intros s w. split; [repeat split | auto].
Qed.

Lemma keeps_gateway_get_zotero_client : frame keeps_gateway get_zotero_client.
Proof.
  intros s. destruct (get_zotero_client_cases s) as [Hu|[[Hu [z Hz]]|[Hu Hz]]].
  - rewrite (get_zotero_client_unconfigured s Hu). apply keeps_gateway_refl.
  - rewrite (get_zotero_client_cached s z Hu Hz). apply keeps_gateway_refl.
  - rewrite (get_zotero_client_builds s Hu Hz). simpl.
    split; [repeat split | intros z Hz'; congruence].
Qed.

Lemma keeps_gateway_delete_batch_loop (z : Zotero) (keys : list string)
      (n : Z) (errors : list string) :
  frame keeps_gateway (delete_batch_loop z keys n errors).
Proof.
  intros s. rewrite delete_batch_loop_run. simpl.
  split; [repeat split | auto].
Qed.

Lemma keeps_gateway_retain_delete_loop (z : Zotero) (items : list value)
      (result : string) (n : Z) :
  frame keeps_gateway (retain_delete_loop z items result n).
Proof.
  pose proof keeps_gateway_refl as Hr. pose proof keeps_gateway_trans as Ht.
  revert result n. induction items as [|item items IH]; intros result n;
    cbn [retain_delete_loop]; frame_steps Hr Ht;
    try apply keeps_gateway_external; try apply IH.
Qed.

(** X15.  Only [configure_zotero] touches the gateway: every other
    operation, from any state and whatever the client does, leaves the
    three credentials as they were and keeps a client that was cached. *)
Theorem only_configure_touches_the_gateway (op : operation) (s : state) :
  (forall library_id api_key library_type,
      op <> OpConfigureZotero library_id api_key library_type) ->
  keeps_gateway s (snd (run op s)).
Proof.
  intros Hop.
  pose proof keeps_gateway_refl as Hr. pose proof keeps_gateway_trans as Ht.
  revert s. change (frame keeps_gateway (run op)).
  destruct op; simpl;
    try (exfalso; eapply Hop; reflexivity);
    unfold list_items, delete_item, delete_items_batch, search_items,
      get_item_details, retain_items_by_criteria, get_library_stats,
      get_recent_items, check_zotero_config;
    (apply frame_bind;
     [exact Ht
     | first [apply keeps_gateway_get_zotero_client | apply frame_gets; exact Hr]
     | intros ?]);
    repeat first
      [ apply keeps_gateway_external
      | apply keeps_gateway_delete_batch_loop
      | apply keeps_gateway_retain_delete_loop
      | apply frame_ret; exact Hr
      | apply frame_gets; exact Hr
      | apply frame_lift; exact Hr
      | apply frame_bind; [exact Ht | | intros ?]
      | apply frame_try; [exact Ht | | intros ?]
      | match goal with
        | |- frame _ (match ?c with _ => _ end) => destruct c
        | |- frame _ (if ?c then _ else _) => destruct c
        | |- frame _ (let _ := _ in _) => cbv zeta
        end ].
Qed.

Lemma attempts_app (z : Zotero) (ks1 ks2 : list string) (w : World) :
  attempts z (ks1 ++ ks2) w =
  (fst (attempts z ks1 w) ++ fst (attempts z ks2 (snd (attempts z ks1 w))),
   snd (attempts z ks2 (snd (attempts z ks1 w)))).
Proof.
  revert w. induction ks1 as [|k ks1 IH]; intros w; simpl.
  - now destruct (attempts z ks2 w).
  - destruct (zot_delete_item z (VStr k) w) as [r w1]. rewrite IH.
    destruct (attempts z ks1 w1) as [l w2]. reflexivity.
Qed.

Lemma delete_items_batch_state (item_keys : list string) (s s1 : state) (z : Zotero) :
  get_zotero_client s = (Ok (Some z), s1) ->
  snd (delete_items_batch item_keys s) =
  mkState (ZOTERO_LIBRARY_ID s1) (ZOTERO_API_KEY s1) (ZOTERO_LIBRARY_TYPE s1)
          (zot s1) (snd (attempts z item_keys (world s1)))
          (calls s1 ++ map (fun k => CallDeleteItem (VStr k)) item_keys).
Proof.
  intros Hget. unfold delete_items_batch. unfold bind at 1. rewrite Hget.
  unfold try_except. unfold bind at 1. rewrite delete_batch_loop_run. reflexivity.
Qed.

(** X16.  Batches compose: with a client at hand, deleting a list of keys
    and then another leaves the state (library, call log, cached client)
    exactly as deleting the two lists in one batch does. *)
Theorem batches_compose (ks1 ks2 : list string) (s s1 : state) (z : Zotero) :
  get_zotero_client s = (Ok (Some z), s1) ->
  snd (delete_items_batch ks2 (snd (delete_items_batch ks1 s)))
  = snd (delete_items_batch (ks1 ++ ks2) s).
Proof.
  intros Hget. destruct (get_zotero_client_some s s1 z Hget) as (Hz & Hu & _).
  rewrite (delete_items_batch_state (ks1 ++ ks2) s s1 z Hget).
  rewrite (delete_items_batch_state ks1 s s1 z Hget).
  erewrite delete_items_batch_state
    by (apply get_zotero_client_cached; [exact Hu | exact Hz]).
  cbn [ZOTERO_LIBRARY_ID ZOTERO_API_KEY ZOTERO_LIBRARY_TYPE zot world calls].
  rewrite attempts_app, map_app, app_assoc. reflexivity.
Qed.

(** X17.  A batch of one key does to the state what [delete_item] does on
    that key, from any state: the same request for a client, the same
    single [delete_item] call, the same library afterwards. *)
Theorem batch_of_one_is_delete_item (item_key : string) (s : state) :
  snd (delete_items_batch [item_key] s) = snd (delete_item item_key s).
Proof.
  unfold delete_items_batch, delete_item. unfold bind at 1 3.
  destruct (get_zotero_client s) as [[[z|]|e] s1]; try reflexivity.
  cbn [delete_batch_loop].
  unfold try_except, bind, call_delete_item, external, ret.
  destruct (zot_delete_item z (VStr item_key) (world s1)) as [[[]|e] w];
    reflexivity.
Qed.
End Gateway2.

(* ================================================================== *)
(** * The properties above, run on the substitute client *)

(** A second request for a client, after a first that built one. *)
Lemma get_zotero_client_caches_witness :
  get_zotero_client (snd (get_zotero_client (Mock.configured Mock.library)))
  = (Ok (Some tt), snd (get_zotero_client (Mock.configured Mock.library))).
Proof.
  apply (proj2 (proj2 (get_zotero_client_caches
                         (PZ := Mock.client) (Mock.configured Mock.library)
                         _ tt eq_refl))).
Defined.

(** A key the substitute client refuses. *)
Lemma failed_construction_is_not_cached_witness :
  zot (snd (get_zotero_client (Mock.refused Mock.library))) = None /\
  calls (snd (get_zotero_client (Mock.refused Mock.library)))
  = [CallZotero "12345" "user" "bad"].
Proof.
  destruct (failed_construction_is_not_cached
              (PZ := Mock.client) (Mock.refused Mock.library) _ eq_refl eq_refl)
    as (Hz & _ & Hc & _).
  split; [exact Hz | exact Hc].
Defined.

(** New credentials given while a client is cached. *)
Lemma configure_forces_a_new_client_witness :
  let cached := snd (get_zotero_client (Mock.configured Mock.library)) in
  let s' := snd (Mock.exec (OpConfigureZotero " 67890 " "secret" None) cached) in
  zot cached = Some tt /\
  calls (snd (get_zotero_client s'))
  = calls s' ++ [CallZotero "67890" "user" "secret"].
Proof.
  split; [reflexivity|].
  destruct (configure_forces_a_new_client
              (PZ := Mock.client) " 67890 " "secret" None
              (snd (get_zotero_client (Mock.configured Mock.library))))
    as [_ H].
  - discriminate.
  - discriminate.
  - left. reflexivity.
  - intros H. vm_compute in H. discriminate H.
  - intros H. vm_compute in H. discriminate H.
  - exact H.
Defined.

(** Credentials given with white space around them. *)
Lemma stored_credentials_are_trimmed_witness :
  let s' := snd (Mock.exec (OpConfigureZotero " 67890 " "  secret" (Some "group"))
                           (Mock.configured Mock.library)) in
  trimmed (ZOTERO_LIBRARY_ID s') = true /\
  trimmed (ZOTERO_API_KEY s') = true /\
  ZOTERO_LIBRARY_TYPE s' = "group".
Proof.
  apply (stored_credentials_are_trimmed
           (PZ := Mock.client) " 67890 " "  secret" (Some "group")
           (Mock.configured Mock.library)).
  - discriminate.
  - discriminate.
  - right. left. reflexivity.
Defined.

(** The report after new credentials the substitute client refuses. *)
Lemma configure_then_check_witness :
  fst (check_zotero_config
         (snd (Mock.exec (OpConfigureZotero " 67890 " "bad" None)
                         (Mock.configured Mock.library))))
  = Ok ("✅ Zotero已配置" +++ LF +++ "库ID: 67890" +++ LF +++ "库类型: user" +++ LF
        +++ "API密钥: ***").
Proof.
  unfold Mock.exec, run.
  rewrite (configure_then_check
             (PZ := Mock.client) " 67890 " "bad" None (Mock.configured Mock.library)).
  - reflexivity.
  - discriminate.
  - discriminate.
  - left. reflexivity.
  - intros H. vm_compute in H. discriminate H.
  - intros H. vm_compute in H. discriminate H.
Defined.

(** The same search in capitals and in small letters. *)
Lemma matching_ignores_case_witness :
  search_loop (RT := Mock.runtime) "PROOF" None Mock.library []
  = search_loop (RT := Mock.runtime) "proof" None Mock.library [] /\
  partition (RT := Mock.runtime) [("title_contains", VStr "PROOF")] Mock.library =
  partition (RT := Mock.runtime) [("title_contains", VStr "proof")] Mock.library.
Proof.
  apply (matching_ignores_case (RT := Mock.runtime)
                               "PROOF" "proof" None [] Mock.library).
  reflexivity.
Defined.

(** Filtering the books of the sample library a second time. *)
Lemma partition_idempotent_witness :
  partition (RT := Mock.runtime) [("item_type", VStr "book")]
            [Mock.book "A" "Types and Proofs"; Mock.book "D" "Cooking"]
  = Ok ([Mock.book "A" "Types and Proofs"; Mock.book "D" "Cooking"], []).
Proof.
  apply (proj1 (partition_idempotent
                  (RT := Mock.runtime)
                  [("item_type", VStr "book")] Mock.library _
                  [Mock.article "B" "A proof engine"; Mock.note "C"] eq_refl)).
Defined.

(** A note without title, and an item without type. *)
Lemma items_missing_a_field_are_deleted_witness :
  should_retain (RT := Mock.runtime) [("title_contains", VStr "x")] (Mock.note "C")
  = Ok false /\
  should_retain (RT := Mock.runtime) [("item_type", VStr "book")]
                (VDict [("key", VStr "E")]) = Ok false.
Proof.
  split.
  - apply (proj2 (items_missing_a_field_are_deleted
                    (RT := Mock.runtime)
                    [("title_contains", VStr "x")] (Mock.note "C")
                    eq_refl eq_refl) "x"); [reflexivity | reflexivity | discriminate].
  - apply (proj1 (items_missing_a_field_are_deleted
                    (RT := Mock.runtime)
                    [("item_type", VStr "book")] (VDict [("key", VStr "E")])
                    eq_refl eq_refl) "book"); reflexivity.
Defined.

(** Searching the sample library for [proof]. *)
Lemma search_agrees_with_filter_witness :
  exists r d,
    partition (RT := Mock.runtime) [("title_contains", VStr "proof")] Mock.library
    = Ok (r, d) /\
    search_loop (RT := Mock.runtime) "proof" None Mock.library []
    = Ok (map summary_of r).
Proof.
  destruct (search_agrees_with_filter
              (RT := Mock.runtime) (PZ := Mock.client) "proof" None Mock.library
              eq_refl)
    as (r & d & Hp & Hs & _).
  now exists r, d.
Defined.

(** Listing the sample library, and a library that holds a number. *)
Lemma listings_summarize_every_item_witness :
  (exists s',
      list_items (RT := Mock.runtime) None (Mock.configured Mock.library)
      = (Ok ("找到 4 个条目:" +++ LF
             +++ @json_dumps Mock.runtime (Some 2)
                            (VList (map summary_of Mock.library))), s') /\
      calls s' = [CallZotero "12345" "user" "abcdefghijkl"; CallTop (Some 50)]) /\
  (exists e,
      fst (list_items (RT := Mock.runtime) None (Mock.configured [VInt 3]))
      = Ok ("获取条目列表失败: " +++ str_e e)).
Proof.
  split.
  - destruct (proj1 (listings_summarize_every_item
                       (RT := Mock.runtime) (PZ := Mock.client) None
                       (Mock.configured Mock.library) _ tt eq_refl)
                    Mock.library Mock.library eq_refl eq_refl)
      as (s' & Hrun & Hcalls & _).
    exists s'. split; [exact Hrun | exact Hcalls].
  - apply (proj1 (proj2 (listings_summarize_every_item
                           (RT := Mock.runtime) (PZ := Mock.client) None
                           (Mock.configured [VInt 3]) _ tt eq_refl))
                 [VInt 3] [VInt 3]); reflexivity.
Defined.

(** The preview of keeping the books of the sample library. *)
Lemma preview_lists_the_first_ten_witness :
  exists s',
    retain_items_by_criteria (RT := Mock.runtime) [("item_type", VStr "book")] None
                             (Mock.configured Mock.library)
    = (Ok ("根据条件筛选结果:" +++ LF +++ "保留条目: 2 个" +++ LF
           +++ "待删除条目: 2 个" +++ LF +++ LF +++ "[预览模式] 待删除的条目:" +++ LF
           +++ "- A proof engine (B)" +++ LF +++ "- 无标题 (C)" +++ LF), s') /\
    world s' = Mock.library.
Proof.
  assert (Hdry : (None : option bool) <> Some false) by discriminate.
  destruct (preview_lists_the_first_ten
              (RT := Mock.runtime) (PZ := Mock.client)
              [("item_type", VStr "book")] None (Mock.configured Mock.library)
              _ tt Mock.library _ _ Mock.library Hdry eq_refl eq_refl eq_refl)
    as (s' & Hrun & Hw).
  exists s'. split; [exact Hrun | exact Hw].
Defined.

(** Keeping the books for good: B and C are deleted. *)
Lemma real_run_reports_each_failure_witness :
  exists s',
    retain_items_by_criteria (RT := Mock.runtime) [("item_type", VStr "book")]
                             (Some false) (Mock.configured Mock.library)
    = (Ok ("根据条件筛选结果:" +++ LF +++ "保留条目: 2 个" +++ LF
           +++ "待删除条目: 2 个" +++ LF +++ LF +++ "实际删除了 2 个条目"), s') /\
    world s' = [Mock.book "A" "Types and Proofs"; Mock.book "D" "Cooking"].
Proof.
  destruct (real_run_reports_each_failure
              (RT := Mock.runtime) (PZ := Mock.client)
              [("item_type", VStr "book")] (Mock.configured Mock.library)
              _ tt Mock.library _ _ Mock.library eq_refl eq_refl eq_refl)
    as (s' & Hrun & Hw & _).
  exists s'. split; [exact Hrun | exact Hw].
Defined.

(** A [title_contains] that is a number, with [dry_run=False]. *)
Lemma nothing_is_deleted_unless_filtered_witness :
  exists s',
    retain_items_by_criteria (RT := Mock.runtime) [("title_contains", VInt 5)]
                             (Some false) (Mock.configured Mock.library)
    = (Ok "执行筛选操作失败: 'int' object has no attribute 'lower'", s') /\
    delete_calls (calls s') = [].
Proof.
  apply (nothing_is_deleted_unless_filtered
           (RT := Mock.runtime) (PZ := Mock.client)
           [("title_contains", VInt 5)] (Some false) (Mock.configured Mock.library)
           _ tt (AttributeError (VInt 5) "lower") eq_refl).
  right. exists Mock.library, Mock.library. split; reflexivity.
Defined.

(** The histogram of the sample library: two books. *)
Lemma stats_count_every_item_witness :
  exists type_counts,
    stats_loop Mock.library [] = Ok type_counts /\
    counts_get (VStr "book") type_counts 0 = 2 /\
    counts_total type_counts = 4.
Proof.
  destruct (stats_count_every_item
              (RT := Mock.runtime) (PZ := Mock.client) Mock.library eq_refl)
    as (tc & Hrun & Hget & Htot & _).
  exists tc. split; [exact Hrun|]. split; [|exact Htot].
  now rewrite (Hget (VStr "book") eq_refl).
Defined.

(** Deleting an item keeps the credentials. *)
Lemma only_configure_touches_the_gateway_witness :
  same_credentials (Mock.configured Mock.library)
                   (snd (Mock.exec (OpDeleteItem "A") (Mock.configured Mock.library))).
Proof.
  apply (only_configure_touches_the_gateway
           (RT := Mock.runtime) (PZ := Mock.client)
           (OpDeleteItem "A") (Mock.configured Mock.library)).
  intros library_id api_key library_type. discriminate.
Defined.

(** Deleting A, then D, and deleting both at once. *)
Lemma batches_compose_witness :
  snd (delete_items_batch ["D"] (snd (delete_items_batch ["A"]
                                        (Mock.configured Mock.library))))
  = snd (delete_items_batch ["A"; "D"] (Mock.configured Mock.library)).
Proof.
  apply (batches_compose (PZ := Mock.client) ["A"] ["D"]
                         (Mock.configured Mock.library) _ tt eq_refl).
Defined.

(* ================================================================== *)
(** * Start-up and the configuration report *)

Section Startup.
Context {RT : PyRuntime} {PZ : PyZotero}.

(** X18.  A server started without the library id or without the key in
    its environment (unset, or set to the empty string) is unconfigured
    whatever the third variable says: every operation that needs a client
    answers that Zotero is not configured, the state stays the initial one
    and nothing is called; [check_zotero_config] gives the unconfigured
    report. *)
Theorem unset_environment_means_unconfigured
        (env_id env_key env_type : option string) (w : World) (op : operation) :
  with_default "" env_id = "" \/ with_default "" env_key = "" ->
  uses_client op = true ->
  let s0 := initial_state env_id env_key env_type w in
  run op s0 = (Ok (not_configured_answer op), s0) /\
  calls s0 = [] /\
  check_zotero_config s0 = (Ok UNCONFIGURED_REPORT, s0).
Proof.
  intros H Hop s0.
  assert (Hu : unconfigured s0 = true).
  { unfold unconfigured, s0, initial_state. simpl. apply orb_true_iff.
    destruct H as [H|H]; [left | right]; now apply is_empty_true. }
  split; [|split].
  - apply run_without_client; [exact Hop|].
    now apply get_zotero_client_unconfigured.
  - reflexivity.
  - unfold check_zotero_config, bind, gets. unfold unconfigured in Hu.
    now rewrite Hu.
Qed.

(** X19.  [check_zotero_config] only reads: it leaves the state, call log
    included, as it found it.  Its answer is the unconfigured report
    exactly when [get_zotero_client] gives up at once, returning [None]
    without a call; so it reports a configuration as present also when no
    client can be built from it. *)
Theorem check_reads_what_the_gateway_tests (s : state) :
  snd (check_zotero_config s) = s /\
  (fst (check_zotero_config s) = Ok UNCONFIGURED_REPORT <->
   get_zotero_client s = (Ok None, s)).
Proof.
  split.
  - unfold check_zotero_config, bind, gets, ret.
    destruct (is_empty _ || is_empty _); reflexivity.
  - split.
    + intros H. apply get_zotero_client_unconfigured.
      unfold check_zotero_config, bind, gets, ret, unconfigured in *.
      destruct (is_empty (ZOTERO_LIBRARY_ID s) || is_empty (ZOTERO_API_KEY s));
        [reflexivity|].
      cbn in H. discriminate H.
    + intros H.
      assert (Hu : unconfigured s = true).
      { destruct (get_zotero_client_cases s) as [Hu|[[Hu [z Hz]]|[Hu Hz]]];
          [exact Hu | |].
        - rewrite (get_zotero_client_cached s z Hu Hz) in H. discriminate.
        - rewrite (get_zotero_client_builds s Hu Hz) in H.
          injection H as _ H. apply (f_equal calls) in H. simpl in H.
          apply (f_equal (@List.length call)) in H.
          rewrite length_app in H. simpl in H. lia. }
      unfold check_zotero_config, bind, gets, ret. unfold unconfigured in Hu.
      now rewrite Hu.
Qed.
End Startup.

(** A server started with a library id and no key. *)
Lemma unset_environment_means_unconfigured_witness :
  Mock.exec (OpListItems None)
            (initial_state (PZ := Mock.client) (Some "12345") None (Some "group")
                           Mock.library)
  = (Ok NOT_CONFIGURED,
     initial_state (PZ := Mock.client) (Some "12345") None (Some "group")
                   Mock.library).
Proof.
  apply (unset_environment_means_unconfigured
           (RT := Mock.runtime) (PZ := Mock.client)
           (Some "12345") None (Some "group") Mock.library (OpListItems None)).
  - right. reflexivity.
  - reflexivity.
Defined.

(** Credentials the substitute client refuses are reported as configured. *)
Lemma check_reads_what_the_gateway_tests_witness :
  fst (check_zotero_config (Mock.refused Mock.library)) <> Ok UNCONFIGURED_REPORT.
Proof.
  intros H.
  apply (proj2 (check_reads_what_the_gateway_tests
                  (PZ := Mock.client) (Mock.refused Mock.library))) in H.
  vm_compute in H. discriminate H.
Defined.

(* ================================================================== *)
(** * Text outside ASCII, on the substitute runtime *)

(** A title in capitals with an accent is found by a query in small
    letters. *)
Example accented_title_is_retained :
  partition (RT := Mock.runtime) [("title_contains", VStr "école")]
            [Mock.book "K" "ÉCOLE normale"]
  = Ok ([Mock.book "K" "ÉCOLE normale"], []).
Proof. reflexivity. Qed.

(** The ideographic space U+3000 is white space: a library id made of it
    passes validation and is stored empty. *)
Example ideographic_space_is_stripped :
  all_space "　" = true /\
  strip "　" = "" /\
  ZOTERO_LIBRARY_ID
    (snd (Mock.exec (OpConfigureZotero "　" "abcdefghijkl" None)
                    (Mock.configured Mock.library))) = "".
Proof. repeat split. Qed.

(** Eight characters in ten bytes are eight characters. *)
Example wide_key_is_fully_masked :
  len "pässwörd" = 8 /\ masked_key "pässwörd" = "********" /\
  masked_key "pässwörd12" = "pässwörd**".
Proof. repeat split. Qed.
